(** * Multitek Smart Home integration: the data coordinator and its views

    A shallow embedding of [custom_components/multitek_smart]:
    [coordinator.py] (fetching the device list, sending relay commands,
    probing the tablet), [sensor.py] (the device-count and
    connection-status sensors), [switch.py] (the relay switch entity and
    its platform), the connection test of [__init__.py] and the steps of
    [config_flow.py], followed by the properties of the snapshot they
    maintain and of the code around it.

    Python dictionaries with string keys are finite maps ([gmap string _]):
    equality of maps is equality of dictionaries, insertion order is not
    kept.  JSON numbers are integers; the tablet sends no fractional
    numbers and floating point is left out of the model. *)

From Stdlib Require Import ZArith String List DecimalString.
From stdpp Require Import gmap strings list fin_maps.

Set Warnings "-register-all".
Local Open Scope Z_scope.
Local Open Scope string_scope.

(** ** Python values *)

Module Py.

(** A decoded JSON document, as [json.loads] / [response.json()] yields it:
    [None], [bool], [int], [str], [list] and [dict] with [str] keys. *)
Inductive json : Type :=
  | JNull
  | JBool (b : bool)
  | JInt (n : Z)
  | JStr (s : string)
  | JList (l : list json)
  | JObj (m : gmap string json).

(** Exceptions, by class, as the [except] clauses tell them apart.
    [TimeoutError] is [asyncio.TimeoutError]; [ClientError msg] is
    [aiohttp.ClientError] or a subclass, [msg] being [str(err)];
    [PyException msg] is [Exception(msg)]; [OtherException] is any other
    subclass of [Exception], with its class name and arguments.  Task
    cancellation is an event of the scheduler and is not modelled.  The
    interpreter's own messages of [AttributeError] and [TypeError] are left
    out. *)
Inductive exn : Type :=
  | TimeoutError
  | ClientError (msg : string)
  | UpdateFailed (msg : string)
  | PyException (msg : string)
  | AttributeError
  | TypeError
  | OtherException (cls : string) (args : list string).

(** A line handed to [_LOGGER.error]: the format string and its arguments,
    unformatted, as the [logging] module receives them. *)
Inductive log_arg : Type :=
  | ArgStr (s : string)
  | ArgExn (e : exn).

Record log_record : Type := LogError { log_fmt : string; log_args : list log_arg }.

(** The parts of the interpreter that are taken as given: [repr] of a list
    or of a dict (the quoting rules of [repr] on strings are not
    reproduced), and [dict.update] called with a JSON value that is not an
    object (it may raise, after a partial update). *)
Class Runtime : Type := {
  py_repr : json -> string;
  dict_update_other : gmap string json -> json -> option exn * gmap string json
}.

(** [str(n)] for an [int]. *)
Definition str_int (n : Z) : string := NilZero.string_of_int (Z.to_int n).

(** [str(v)], which is also what an f-string field [{v}] renders. *)
Definition py_str {RT : Runtime} (v : json) : string :=
  match v with
  | JNull => "None"
  | JBool true => "True"
  | JBool false => "False"
  | JInt n => str_int n
  | JStr s => s
  | JList _ | JObj _ => py_repr v
  end.

(** Truth value of [v], as [if v:] and [not v] take it. *)
Definition py_truthy (v : json) : bool :=
  match v with
  | JNull => false
  | JBool b => b
  | JInt n => negb (Z.eqb n 0)
  | JStr s => negb (String.eqb s "")
  | JList l => match l with [] => false | _ :: _ => true end
  | JObj m => negb (bool_decide (m = ∅))
  end.

(** [d.get(key, default)] on a dict. *)
Definition dict_get (d : gmap string json) (key : string) (dflt : json) : json :=
  default dflt (d !! key).

(** [d.update(other)]: the fields of [other] overwrite those of [d], the
    fields of [d] that [other] lacks stay. *)
Definition dict_update {RT : Runtime} (d : gmap string json) (other : json)
    : option exn * gmap string json :=
  match other with
  | JObj fields => (None, fields ∪ d)
  | _ => dict_update_other d other
  end.

(** Keys of a dict whose keys are arbitrary hashable JSON values: [True]
    and [1] (and [False] and [0]) are the same key, lists and dicts are
    unhashable. *)
Inductive pykey : Type :=
  | KNone
  | KInt (n : Z)
  | KStr (s : string).

Definition py_hash (v : json) : exn + pykey :=
  match v with
  | JNull => inr KNone
  | JBool b => inr (KInt (if b then 1 else 0))
  | JInt n => inr (KInt n)
  | JStr s => inr (KStr s)
  | JList _ | JObj _ => inl TypeError
  end.

#[global] Instance pykey_eq_dec : EqDecision pykey.
Proof. solve_decision. Defined.

#[global] Instance pykey_countable : Countable pykey.
Proof.
  refine (inj_countable'
    (fun k => match k with
              | KNone => inl ()
              | KInt n => inr (inl n)
              | KStr s => inr (inr s)
              end)
    (fun x => match x with
              | inl _ => KNone
              | inr (inl n) => KInt n
              | inr (inr s) => KStr s
              end) _).
  by intros [].
Defined.

End Py.
Export Py.

(** ** const.py *)

Module Const.

Definition DEFAULT_UPDATE_INTERVAL : Z := 30.

Definition RELAY_TYPE_LIGHT : Z := 1.
Definition RELAY_TYPE_SHUTTER : Z := 2.
Definition RELAY_TYPE_ON_OFF : Z := 3.
Definition RELAY_TYPE_GAS : Z := 4.
Definition RELAY_TYPE_ELECTRIC : Z := 5.
Definition RELAY_TYPE_WATER : Z := 6.

Definition API_STATUS : string := "/api/status".
Definition API_DEVICES : string := "/api/devices".

(** [API_RELAY_STATE.format(device_id=device_id)] *)
Definition API_RELAY_STATE (device_id : string) : string :=
  "/api/relay/" +:+ device_id +:+ "/state".

(** [API_RELAY_TOGGLE.format(device_id=device_id)] *)
Definition API_RELAY_TOGGLE (device_id : string) : string :=
  "/api/relay/" +:+ device_id +:+ "/toggle".

Definition ATTR_DEVICE_TYPE : string := "device_type".
Definition ATTR_ROOM_NAME : string := "room_name".
Definition ATTR_FLAT_NAME : string := "flat_name".
Definition ATTR_FAVOURITE : string := "favourite".

Definition DEVICE_TYPE_ICONS : gmap Z string :=
  list_to_map
    [ (RELAY_TYPE_LIGHT, "mdi:lightbulb");
      (RELAY_TYPE_SHUTTER, "mdi:window-shutter");
      (RELAY_TYPE_ON_OFF, "mdi:toggle-switch");
      (RELAY_TYPE_GAS, "mdi:gas-cylinder");
      (RELAY_TYPE_ELECTRIC, "mdi:flash");
      (RELAY_TYPE_WATER, "mdi:water") ].

Definition DEVICE_TYPE_NAMES : gmap Z string :=
  list_to_map
    [ (RELAY_TYPE_LIGHT, "Light");
      (RELAY_TYPE_SHUTTER, "Shutter");
      (RELAY_TYPE_ON_OFF, "Switch");
      (RELAY_TYPE_GAS, "Gas Valve");
      (RELAY_TYPE_ELECTRIC, "Electric Switch");
      (RELAY_TYPE_WATER, "Water Valve") ].

End Const.
Export Const.

(** ** The HTTP transport

    The tablet is reached through an [aiohttp] session.  One call is a
    request and what came of it: either the call raised (the 10 s or 5 s
    timeout expired, the connection failed, ...) or a response arrived,
    with its status and with what [await response.json()] gives when the
    code asks for it.  The behaviour of the tablet during one operation is
    a function from the request to that outcome. *)

Module Transport.

Record request : Type := Request {
  req_method : string;
  req_url : string;
  req_headers : gmap string string;
  req_json : option json;
  req_timeout : Z
}.

Inductive http_result : Type :=
  | Raised (e : exn)
  | Response (status : Z) (body : exn + json).

End Transport.
Export Transport.

(** ** coordinator.py *)

Module Coordinator.

(** The coordinator object.  [data] and [last_update_success] are the
    attributes of the base class that this repository reads and writes
    ([data] is declared a [dict[str, Any]]); [listeners] are the entities
    registered for updates, each with its own state; [log] collects the
    records this module sends to [_LOGGER].  The time of the last update
    is not modelled. *)
Record coordinator (L : Type) : Type := MkCoordinator {
  base_url : string;
  headers : gmap string string;
  data : gmap string (gmap string json);
  last_update_success : bool;
  listeners : list L;
  log : list log_record
}.

Arguments MkCoordinator {L}.
Arguments base_url {L}.
Arguments headers {L}.
Arguments data {L}.
Arguments last_update_success {L}.
Arguments listeners {L}.
Arguments log {L}.

Definition set_data {L} (d : gmap string (gmap string json)) (c : coordinator L)
    : coordinator L :=
  MkCoordinator (base_url c) (headers c) d (last_update_success c)
                (listeners c) (log c).

Definition set_last_update_success {L} (b : bool) (c : coordinator L)
    : coordinator L :=
  MkCoordinator (base_url c) (headers c) (data c) b (listeners c) (log c).

Definition set_listeners {L} (ls : list L) (c : coordinator L) : coordinator L :=
  MkCoordinator (base_url c) (headers c) (data c) (last_update_success c)
                ls (log c).

Definition log_error {L} (fmt : string) (args : list log_arg) (c : coordinator L)
    : coordinator L :=
  MkCoordinator (base_url c) (headers c) (data c) (last_update_success c)
                (listeners c) (log c ++ [LogError fmt args]).

(** Iterating over a JSON value in a [for] loop: a list gives its elements,
    a string its characters, a dict its keys; anything else is not
    iterable. *)
Definition py_iter (v : json) : exn + list json :=
  match v with
  | JList l => inr l
  | JStr s => inr ((fun ch => JStr (String ch EmptyString)) <$> list_ascii_of_string s)
  | JObj m => inr (JStr <$> (map_to_list m).*1)
  | JNull | JBool _ | JInt _ => inl TypeError
  end.

Section Coordinator.

Context {RT : Runtime} {L : Type}.

(** What a registered listener does when it is called: it reads the
    coordinator's data, changes its own state and may raise. *)
Variable notify : gmap string (gmap string json) -> L -> option exn * L.

(** Modelled from the spec: the base class [DataUpdateCoordinator] belongs
    to the host platform and is not among the sources.  Notifying calls
    every observer in turn, on the same task; an observer that raises ends
    the round. *)
Fixpoint async_update_listeners (d : gmap string (gmap string json)) (ls : list L)
    : option exn * list L :=
  match ls with
  | [] => (None, [])
  | l :: rest =>
      match notify d l with
      | (Some e, l') => (Some e, l' :: rest)
      | (None, l') =>
          let '(r, rest') := async_update_listeners d rest in (r, l' :: rest')
      end
  end.

(** Modelled from the spec: [async_set_updated_data] of the missing base
    class.  It stores the data it is given and notifies the observers
    (section 4.3: after a successful command the observers are notified). *)
Definition async_set_updated_data (c : coordinator L)
    (d : gmap string (gmap string json)) : option exn * coordinator L :=
  let '(r, ls) := async_update_listeners d (listeners c) in
  (r, set_listeners ls (set_data d c)).

Definition devices_request (c : coordinator L) : request :=
  Request "GET" (base_url c +:+ API_DEVICES) (headers c) None 10.

(** [str(device.get("id"))] *)
Definition device_key (device : gmap string json) : string :=
  py_str (dict_get device "id" JNull).

(** The loop of [_async_update_data]: [devices[device_id] = device] for
    each element in turn.  An element that is not a dict has no [get]. *)
Fixpoint index_devices (items : list json)
    (devices : gmap string (gmap string json))
    : exn + gmap string (gmap string json) :=
  match items with
  | [] => inr devices
  | JObj device :: rest =>
      index_devices rest (<[device_key device := device]> devices)
  | _ :: _ => inl AttributeError
  end.

(** The body of the [try] block of [_async_update_data]. *)
Definition fetch_devices (srv : request -> http_result) (c : coordinator L)
    : exn + gmap string (gmap string json) :=
  match srv (devices_request c) with
  | Raised e => inl e
  | Response status body =>
      if bool_decide (status ≠ 200) then
        inl (UpdateFailed ("API returned status " +:+ str_int status))
      else
        match body with
        | inl e => inl e
        | inr (JObj data) =>
            match py_iter (dict_get data "devices" (JList [])) with
            | inl e => inl e
            | inr items => index_devices items ∅
            end
        | inr _ => inl AttributeError
        end
  end.

(** [_async_update_data]: the [try] block and its two [except] clauses. *)
Definition _async_update_data (srv : request -> http_result) (c : coordinator L)
    : exn + gmap string (gmap string json) :=
  match fetch_devices srv c with
  | inl TimeoutError =>
      inl (UpdateFailed ("Timeout fetching data from " +:+ base_url c))
  | inl (ClientError msg) =>
      inl (UpdateFailed ("Error fetching data: " +:+ msg))
  | other => other
  end.

(** Modelled from the spec: [refresh()] of the missing base class
    (section 4.2).  It calls [_async_update_data]; on success the snapshot
    is replaced by the result, [last_update_success] becomes true and the
    observers are notified; on an error the snapshot stays as it is,
    [last_update_success] becomes false and nobody is notified. *)
Definition async_refresh (srv : request -> http_result) (c : coordinator L)
    : coordinator L :=
  match _async_update_data srv c with
  | inr devices =>
      (async_set_updated_data (set_last_update_success true c) devices).2
  | inl _ => set_last_update_success false c
  end.

(** Periodic polling: one refresh after the other, each against the
    tablet as it behaves at that moment. *)
Definition refresh_all (srvs : list (request -> http_result)) (c : coordinator L)
    : coordinator L :=
  fold_left (fun c srv => async_refresh srv c) srvs c.

Definition relay_request (c : coordinator L) (device_id command : string)
    (value : json) : request :=
  if bool_decide (command = "toggle") then
    Request "POST" (base_url c +:+ API_RELAY_TOGGLE device_id) (headers c)
            (Some (JObj ∅)) 10
  else
    Request "POST" (base_url c +:+ API_RELAY_STATE device_id) (headers c)
            (Some (JObj {["state" := value]})) 10.

(** The body of the [try] block of [send_relay_command]. *)
Definition relay_attempt (srv : request -> http_result) (c : coordinator L)
    (device_id command : string) (value : json)
    : (exn + json) * coordinator L :=
  match srv (relay_request c device_id command value) with
  | Raised e => (inl e, c)
  | Response status body =>
      if bool_decide (status ≠ 200) then
        match body with
        | inl e => (inl e, c)
        | inr (JObj error_data) =>
            (inl (PyException
                    ("Command failed: " +:+
                     py_str (dict_get error_data "message" (JStr "Unknown error")))),
             c)
        | inr _ => (inl AttributeError, c)
        end
      else
        match body with
        | inl e => (inl e, c)
        | inr result =>
            match data c !! device_id with
            | Some entry =>
                let '(raised, entry') := dict_update entry result in
                let c1 := set_data (<[device_id := entry']> (data c)) c in
                match raised with
                | Some e => (inl e, c1)
                | None =>
                    match async_set_updated_data c1 (data c1) with
                    | (Some e, c2) => (inl e, c2)
                    | (None, c2) => (inr result, c2)
                    end
                end
            | None => (inr result, c)
            end
        end
  end.

(** [send_relay_command]: the [try] block, then the two [except] clauses,
    which log and raise again. *)
Definition send_relay_command (srv : request -> http_result) (c : coordinator L)
    (device_id command : string) (value : json)
    : (exn + json) * coordinator L :=
  match relay_attempt srv c device_id command value with
  | (inl TimeoutError, c') =>
      (inl TimeoutError,
       log_error "Timeout sending command to device %s" [ArgStr device_id] c')
  | (inl err, c') =>
      (inl err,
       log_error "Error sending command to device %s: %s"
                 [ArgStr device_id; ArgExn err] c')
  | (inr result, c') => (inr result, c')
  end.

Definition status_request (c : coordinator L) : request :=
  Request "GET" (base_url c +:+ "/api/status") (headers c) None 5.

(** [test_connection]: what it returns is the value of the [online] field
    as the tablet sent it, or [False]. *)
Definition test_connection (srv : request -> http_result) (c : coordinator L)
    : json :=
  match srv (status_request c) with
  | Raised _ => JBool false
  | Response status body =>
      if bool_decide (status = 200) then
        match body with
        | inl _ => JBool false
        | inr (JObj data) => dict_get data "online" (JBool false)
        | inr _ => JBool false
        end
      else JBool false
  end.

End Coordinator.

End Coordinator.
Export Coordinator.

(** ** sensor.py *)

Module MultitekDeviceCountSensor.

(** [native_value]: [len(self.coordinator.data)] *)
Definition native_value {L} (c : coordinator L) : Z :=
  Z.of_nat (size (data c)).

(** One round of the loop of [extra_state_attributes]: the device is
    counted under its [type_name] field, under ["unknown"] when it has
    none. *)
Definition count_device (device_types : gmap pykey Z)
    (device : gmap string json) : exn + gmap pykey Z :=
  match py_hash (dict_get device "type_name" (JStr "unknown")) with
  | inl e => inl e
  | inr device_type =>
      inr (<[device_type := default 0 (device_types !! device_type) + 1]>
             device_types)
  end.

Fixpoint count_devices (devices : list (gmap string json))
    (device_types : gmap pykey Z) : exn + gmap pykey Z :=
  match devices with
  | [] => inr device_types
  | device :: rest =>
      match count_device device_types device with
      | inl e => inl e
      | inr device_types' => count_devices rest device_types'
      end
  end.

(** The [device_types] entry of [extra_state_attributes]; the other two
    entries repeat the address of the tablet.  The devices are visited in
    the order of the map rather than in the order of insertion; the counts
    are the same in any order. *)
Definition extra_state_attributes {L} (c : coordinator L) : exn + gmap pykey Z :=
  count_devices (map_to_list (data c)).*2 ∅.

End MultitekDeviceCountSensor.

Module MultitekConnectionStatusSensor.

Definition native_value {L} (c : coordinator L) : string :=
  if last_update_success c then "Connected" else "Disconnected".

End MultitekConnectionStatusSensor.

(** ** switch.py *)

Module MultitekRelaySwitch.

(** The attributes of a switch entity that this repository sets, and
    [written]: the value of [is_on] at the last [async_write_ha_state()],
    which is what the platform shows. *)
Record switch : Type := MkSwitch {
  _device_id : string;
  _attr_name : json;
  _attr_icon : string;
  _attr_extra_state_attributes : gmap string json;
  _attr_is_on : json;
  written : option json
}.

Definition SWITCH_DEVICE_TYPES : list Z :=
  [RELAY_TYPE_LIGHT; RELAY_TYPE_ON_OFF; RELAY_TYPE_GAS; RELAY_TYPE_ELECTRIC;
   RELAY_TYPE_WATER].

(** [device_type in SWITCH_DEVICE_TYPES]: membership in a list compares
    with [==], under which [True] equals [1]. *)
Definition in_switch_types (device_type : json) : bool :=
  match device_type with
  | JInt n => bool_decide (n ∈ SWITCH_DEVICE_TYPES)
  | JBool b => bool_decide ((if b then 1 else 0) ∈ SWITCH_DEVICE_TYPES)
  | _ => false
  end.

(** [table.get(key, dflt)] on one of the two tables of const.py, whose
    keys are integers: the key is hashed first. *)
Definition table_get (table : gmap Z string) (key : json) (dflt : string)
    : exn + string :=
  match py_hash key with
  | inl e => inl e
  | inr (KInt n) => inr (default dflt (table !! n))
  | inr _ => inr dflt
  end.

Definition async_write_ha_state (self : switch) : switch :=
  MkSwitch (_device_id self) (_attr_name self) (_attr_icon self)
           (_attr_extra_state_attributes self) (_attr_is_on self)
           (Some (_attr_is_on self)).

Definition set_is_on (v : json) (self : switch) : switch :=
  MkSwitch (_device_id self) (_attr_name self) (_attr_icon self)
           (_attr_extra_state_attributes self) v (written self).

(** [_update_from_data]: the attributes are assigned one after the other,
    so a failing table lookup leaves the name already changed. *)
Definition _update_from_data (self : switch) (device_data : gmap string json)
    : option exn * switch :=
  let device_type := dict_get device_data "type" (JInt RELAY_TYPE_ON_OFF) in
  let name := dict_get device_data "name" (JStr ("Relay " +:+ _device_id self)) in
  let named :=
    MkSwitch (_device_id self) name (_attr_icon self)
             (_attr_extra_state_attributes self) (_attr_is_on self)
             (written self) in
  match table_get DEVICE_TYPE_ICONS device_type "mdi:toggle-switch" with
  | inl e => (Some e, named)
  | inr icon =>
      match table_get DEVICE_TYPE_NAMES device_type "Unknown" with
      | inl e =>
          (Some e,
           MkSwitch (_device_id self) name icon
                    (_attr_extra_state_attributes self) (_attr_is_on self)
                    (written self))
      | inr type_name =>
          let attrs : gmap string json :=
            {[ ATTR_DEVICE_TYPE := dict_get device_data "type_name" (JStr type_name);
               ATTR_ROOM_NAME := dict_get device_data "room_name" (JStr "");
               ATTR_FLAT_NAME := dict_get device_data "flat_name" (JStr "");
               ATTR_FAVOURITE := dict_get device_data "favourite" (JBool false) ]} in
          (None,
           MkSwitch (_device_id self) name icon attrs
                    (dict_get device_data "state" (JBool false))
                    (written self))
      end
  end.

(** [MultitekRelaySwitch(coordinator, entry, device_id, device_data)] *)
Definition __init__ (device_id : string) (device_data : gmap string json)
    : option exn * switch :=
  _update_from_data (MkSwitch device_id JNull "" ∅ JNull None) device_data.

(** [_handle_coordinator_update], the listener of a switch. *)
Definition _handle_coordinator_update (d : gmap string (gmap string json))
    (self : switch) : option exn * switch :=
  match d !! _device_id self with
  | Some device_data =>
      if py_truthy (JObj device_data) then
        match _update_from_data self device_data with
        | (Some e, self') => (Some e, self')
        | (None, self') => (None, async_write_ha_state self')
        end
      else (None, self)
  | None => (None, self)
  end.

(** The entities [async_setup_entry] creates: one for each device of the
    snapshot whose type is a switch type (in the order of the map).  For
    such a type the constructor cannot raise. *)
Definition async_setup_entry (d : gmap string (gmap string json)) : list switch :=
  omap (fun '(device_id, device_data) =>
          if in_switch_types (dict_get device_data "type" (JInt RELAY_TYPE_ON_OFF))
          then Some (__init__ device_id device_data).2
          else None)
       (map_to_list d).

Section Commands.

Context {RT : Runtime}.

(** A command of entity number [i] of the coordinator's listeners:
    [send_relay_command] first; when it returns, [is_on] is assigned and
    the state is written.  When it raises, the exception leaves the
    method. *)
Definition command_then (srv : request -> http_result) (c : coordinator switch)
    (i : nat) (command : string) (value : json) (assign : switch -> json)
    : option exn * coordinator switch :=
  match listeners c !! i with
  | None => (None, c)
  | Some self =>
      match send_relay_command _handle_coordinator_update srv c
                               (_device_id self) command value with
      | (inl e, c') => (Some e, c')
      | (inr _, c') =>
          (None,
           set_listeners
             (alter (fun s => async_write_ha_state (set_is_on (assign s) s))
                    i (listeners c'))
             c')
      end
  end.

Definition async_turn_on (srv : request -> http_result) (c : coordinator switch)
    (i : nat) : option exn * coordinator switch :=
  command_then srv c i "set_state" (JBool true) (fun _ => JBool true).

Definition async_turn_off (srv : request -> http_result) (c : coordinator switch)
    (i : nat) : option exn * coordinator switch :=
  command_then srv c i "set_state" (JBool false) (fun _ => JBool false).

(** [async_toggle]: after the command, [self._attr_is_on = not
    self._attr_is_on]. *)
Definition async_toggle (srv : request -> http_result) (c : coordinator switch)
    (i : nat) : option exn * coordinator switch :=
  command_then srv c i "toggle" JNull
               (fun s => JBool (negb (py_truthy (_attr_is_on s)))).

End Commands.

End MultitekRelaySwitch.

(** ** Outcomes of a call

    The situations the properties below speak about, as conditions on what
    the tablet answers to the request of the operation. *)

Section Outcomes.

Context {L : Type}.

Implicit Types (c : coordinator L) (srv : request -> http_result).

(** The fetch came back with status 200 and a body whose [devices] field
    is the list [devs] of device entries. *)
Definition fetched srv c (devs : list (gmap string json)) : Prop :=
  ∃ body, srv (devices_request c) = Response 200 (inr (JObj body))
          ∧ body !! "devices" = Some (JList (JObj <$> devs)).

(** The fetch failed: the timeout expired, the connection failed, or the
    tablet answered with a status other than 200. *)
Definition fetch_failed srv c : Prop :=
  srv (devices_request c) = Raised TimeoutError
  ∨ (∃ msg, srv (devices_request c) = Raised (ClientError msg))
  ∨ (∃ status body, srv (devices_request c) = Response status body
                    ∧ status ≠ 200).

(** The transport call of a command failed: the call raised (the timeout
    expired, for one), or the tablet answered with a status other than
    200. *)
Definition command_failed srv c (device_id command : string) (value : json)
    : Prop :=
  (∃ e, srv (relay_request c device_id command value) = Raised e)
  ∨ (∃ status body,
       srv (relay_request c device_id command value) = Response status body
       ∧ status ≠ 200).

(** The error of the specification's taxonomy,
    [CommandFailed(device_id, reason)]: an exception of that class that
    carries the device id and a reason. *)
Definition is_CommandFailed (device_id : string) (e : exn) : Prop :=
  ∃ reason, e = OtherException "CommandFailed" [device_id; reason].

End Outcomes.

(** ** A tablet with one lamp

    The installation used in the examples: a tablet that reports one
    device, and the coordinator and switch entity that result from it.
    None of the examples reaches the two operations of the interpreter
    that [Runtime] leaves open. *)

Module Scenario.

Import MultitekRelaySwitch.

Definition runtime : Runtime :=
  {| py_repr := fun _ => "?";
     dict_update_other := fun d _ => (Some TypeError, d) |}.

Definition address : string := "http://192.168.1.50:8123".

Definition lamp : gmap string json :=
  list_to_map
    [("id", JStr "1"); ("type", JInt 1); ("name", JStr "Lamp");
     ("state", JBool false)].

(** The coordinator as it is constructed, before the first refresh. *)
Definition fresh : coordinator switch := MkCoordinator address ∅ ∅ false [] [].

(** A tablet that answers [GET /api/devices] with the lamp. *)
Definition tablet (req : request) : http_result :=
  if bool_decide (req_url req = address +:+ "/api/devices") then
    Response 200 (inr (JObj {["devices" := JList [JObj lamp]]}))
  else Response 404 (inr (JObj ∅)).

(** A tablet that does not answer in time. *)
Definition silent (req : request) : http_result := Raised TimeoutError.

(** After the first refresh, and after the switch platform has been set
    up and its entity registered. *)
Definition polled : coordinator switch :=
  @async_refresh runtime switch _handle_coordinator_update tablet fresh.

Definition installed : coordinator switch :=
  set_listeners (async_setup_entry (data polled)) polled.

(** A tablet that answers the toggle of device 1 with the new state. *)
Definition toggled (req : request) : http_result :=
  if bool_decide (req_url req = address +:+ "/api/relay/1/toggle") then
    Response 200
      (inr (JObj (list_to_map [("id", JStr "1"); ("state", JBool true)])))
  else Response 404 (inr (JObj ∅)).

(** A tablet that answers every request with status 200 and a state. *)
Definition obliging (req : request) : http_result :=
  Response 200 (inr (JObj {["state" := JBool true]})).

(** A tablet whose status endpoint reports [online] as a number. *)
Definition numeric_status (req : request) : http_result :=
  Response 200 (inr (JObj {["online" := JInt 1]})).

(** A tablet that reports two devices under the same id. *)
Definition twins : list (gmap string json) :=
  [ list_to_map [("id", JInt 7); ("name", JStr "old")];
    list_to_map [("id", JStr "7"); ("name", JStr "new")] ].

Definition twin_tablet (req : request) : http_result :=
  Response 200 (inr (JObj {["devices" := JList (JObj <$> twins)]})).

End Scenario.

(** ** switch.py: the listener for new devices *)

Module SwitchPlatform.

Import MultitekRelaySwitch.

(** One round of the loop of [handle_coordinator_update], the listener
    that [async_setup_entry] registers: a device that is not yet in
    [current_devices] and has a switch type gets a new entity and is
    recorded in [current_devices]. *)
Definition handle_device (acc : list switch * gmap string bool)
    (item : string * gmap string json) : list switch * gmap string bool :=
  let '(new_entities, current_devices) := acc in
  let '(device_id, device_data) := item in
  match current_devices !! device_id with
  | Some _ => acc
  | None =>
      if in_switch_types (dict_get device_data "type" (JInt RELAY_TYPE_ON_OFF))
      then ((new_entities ++ [(__init__ device_id device_data).2])%list,
            <[device_id := true]> current_devices)
      else acc
  end.

(** [handle_coordinator_update]: the entities it hands to
    [async_add_entities] and the [devices] record of the integration
    afterwards ([current_devices] is that record, changed in place). *)
Definition handle_coordinator_update (current_devices : gmap string bool)
    (d : gmap string (gmap string json)) : list switch * gmap string bool :=
  fold_left handle_device (map_to_list d) ([], current_devices).

End SwitchPlatform.

(** ** Reading the snapshot

    Notions used to state what the sensors and switches show. *)

Section Readings.

(** The key under which the device-count sensor counts a device: its
    [type_name], ["unknown"] when it has none. *)
Definition type_key (device : gmap string json) : exn + pykey :=
  py_hash (dict_get device "type_name" (JStr "unknown")).

Definition counted_under (k : pykey) (device : gmap string json) : bool :=
  match type_key device with
  | inr k' => bool_decide (k' = k)
  | inl _ => false
  end.

(** A device for which a switch entity is made. *)
Definition switchable (device : gmap string json) : bool :=
  MultitekRelaySwitch.in_switch_types
    (dict_get device "type" (JInt RELAY_TYPE_ON_OFF)).

End Readings.

(** ** The config entry

    [entry.data] as the config flow creates it: both of its steps store
    these four keys.  The address and the port are kept as the JSON values
    they are taken from; the key is a string by the schema of the form. *)

Module ConfigEntry.

Record entry_data : Type := MkEntry {
  tablet_ip : json;
  tablet_port : json;
  use_auth : bool;
  api_key : string
}.

Section Connection.

Context {RT : Runtime}.

(** [f"http://{entry.data[CONF_TABLET_IP]}:{entry.data[CONF_TABLET_PORT]}"],
    as [MultitekDataCoordinator.__init__], [async_setup_entry] and the
    config flow all build it. *)
Definition entry_base_url (entry : entry_data) : string :=
  "http://" +:+ py_str (tablet_ip entry) +:+ ":" +:+ py_str (tablet_port entry).

(** The headers [MultitekDataCoordinator.__init__] and [async_setup_entry]
    compute: the key goes into [X-HA-Access] when authentication is on. *)
Definition entry_headers (entry : entry_data) : gmap string string :=
  if use_auth entry then {["X-HA-Access" := api_key entry]} else ∅.

End Connection.

End ConfigEntry.
Export ConfigEntry.

(** ** __init__.py *)

Module Integration.

Definition ConfigEntryNotReady (msg : string) : exn :=
  OtherException "ConfigEntryNotReady" [msg].

Section Setup.

Context {RT : Runtime}.

Definition setup_request (entry : entry_data) : request :=
  Request "GET" (entry_base_url entry +:+ API_STATUS) (entry_headers entry)
          None 10.

(** The body of the [try] block at the head of [async_setup_entry]. *)
Definition setup_attempt (srv : request -> http_result) (entry : entry_data)
    : exn + unit :=
  match srv (setup_request entry) with
  | Raised e => inl e
  | Response status body =>
      if bool_decide (status ≠ 200) then
        inl (ConfigEntryNotReady
               ("Cannot connect to tablet: " +:+ str_int status))
      else
        match body with
        | inl e => inl e
        | inr (JObj data) =>
            if negb (py_truthy (dict_get data "online" JNull)) then
              inl (ConfigEntryNotReady "Tablet server is not online")
            else inr ()
        | inr _ => inl AttributeError
        end
  end.

(** The connection test of [async_setup_entry]: the [try] block and its
    two [except] clauses.  Setup goes on to create the coordinator only
    when it returns. *)
Definition setup_connection_test (srv : request -> http_result)
    (entry : entry_data) : exn + unit :=
  match setup_attempt srv entry with
  | inl TimeoutError =>
      inl (ConfigEntryNotReady
             ("Timeout connecting to tablet at " +:+ entry_base_url entry))
  | inl (ClientError msg) =>
      inl (ConfigEntryNotReady ("Error connecting to tablet: " +:+ msg))
  | other => other
  end.

End Setup.

End Integration.

(** ** config_flow.py *)

Module MultitekConfigFlow.

Definition DEFAULT_PORT : Z := 8123.
Definition API_DISCOVER : string := "/api/discover".
Definition CONF_TABLET_IP : string := "tablet_ip".

Definition CannotConnect (msg : string) : exn :=
  OtherException "CannotConnect" [msg].

Definition InvalidAuth (msg : string) : exn :=
  OtherException "InvalidAuth" [msg].

(** The [NameError] of a module that uses [asyncio] without importing
    it. *)
Definition asyncio_NameError : exn :=
  OtherException "NameError" ["name 'asyncio' is not defined"].

(** What a step of the flow returns: a form to show, with its errors and
    placeholders (its schema is left out), or the entry to create. *)
Inductive flow_result : Type :=
  | ShowForm (step_id : string) (errors : gmap string string)
             (placeholders : gmap string json)
  | CreateEntry (title : string) (data : entry_data).

(** The error code the [except] clauses of [async_step_user] put under
    ["base"]. *)
Definition user_error_code (e : exn) : string :=
  match e with
  | OtherException "CannotConnect" _ => "cannot_connect"
  | OtherException "InvalidAuth" _ => "invalid_auth"
  | _ => "unknown"
  end.

(** The same for [async_step_auth], which has no clause for
    [CannotConnect]. *)
Definition auth_error_code (e : exn) : string :=
  match e with
  | OtherException "InvalidAuth" _ => "invalid_auth"
  | _ => "unknown"
  end.

Section Flow.

Context {RT : Runtime}.

(** What [async_set_unique_id] followed by [_abort_if_unique_id_configured]
    does for a unique id: the two calls belong to the platform; they
    return, or raise to abort the flow. *)
Variable unique_id_guard : string -> option exn.

Definition discover_request (ip : string) (port : Z) : request :=
  Request "GET" ("http://" +:+ ip +:+ ":" +:+ str_int port +:+ API_DISCOVER)
          ∅ None 10.

(** The body of the [try] block of [_test_connection]; [data] is the input
    of the user form, an address and a port. *)
Definition discover_attempt (srv : request -> http_result) (ip : string)
    (port : Z) : exn + gmap string json :=
  match srv (discover_request ip port) with
  | Raised e => inl e
  | Response status body =>
      if bool_decide (status ≠ 200) then
        inl (CannotConnect ("HTTP " +:+ str_int status))
      else
        match body with
        | inl e => inl e
        | inr (JObj discovery_info) =>
            inr (<["port" := JInt port]> (<["ip" := JStr ip]> discovery_info))
        | inr _ => inl TypeError
        end
  end.

(** [_test_connection]: the [try] block and its first clause,
    [except asyncio.TimeoutError].  [config_flow.py] does not import
    [asyncio]: when an exception of the [try] block reaches the clause,
    looking the name up raises [NameError], and that is the exception
    that leaves the method, whatever was raised. *)
Definition _test_connection (srv : request -> http_result) (ip : string)
    (port : Z) : exn + gmap string json :=
  match discover_attempt srv ip port with
  | inl _ => inl asyncio_NameError
  | inr discovery_info => inr discovery_info
  end.

Definition auth_request (data : entry_data) : request :=
  Request "GET" (entry_base_url data +:+ "/api/status")
          {["X-HA-Access" := api_key data]} None 10.

(** The body of the [try] block of [_test_auth]: only the status of the
    answer is looked at. *)
Definition auth_attempt (srv : request -> http_result) (data : entry_data)
    : exn + unit :=
  match srv (auth_request data) with
  | Raised e => inl e
  | Response status _ =>
      if bool_decide (status = 401) then inl (InvalidAuth "Invalid API key")
      else if bool_decide (status ≠ 200) then
        inl (CannotConnect ("HTTP " +:+ str_int status))
      else inr ()
  end.

(** [_test_auth]: as in [_test_connection], an exception of the [try]
    block leaves the method as the [NameError] of the first [except]
    clause. *)
Definition _test_auth (srv : request -> http_result) (data : entry_data)
    : exn + unit :=
  match auth_attempt srv data with
  | inl _ => inl asyncio_NameError
  | inr done => inr done
  end.

Definition auth_form (errors : gmap string string)
    (_discovered_info : gmap string json) : flow_result :=
  ShowForm "auth" errors
           {[CONF_TABLET_IP := dict_get _discovered_info "ip" (JStr "unknown")]}.

(** [async_step_auth]; [user_input] is the key typed into the form, if the
    form has been filled in. *)
Definition async_step_auth (srv : request -> http_result)
    (_discovered_info : gmap string json) (user_input : option string)
    : flow_result :=
  match user_input with
  | None => auth_form ∅ _discovered_info
  | Some key =>
      let full_config :=
        MkEntry (dict_get _discovered_info "ip" JNull)
                (dict_get _discovered_info "port" (JInt DEFAULT_PORT))
                true key in
      match _test_auth srv full_config with
      | inl e => auth_form {["base" := auth_error_code e]} _discovered_info
      | inr _ =>
          match unique_id_guard
                  (py_str (tablet_ip full_config) +:+ ":" +:+
                   py_str (tablet_port full_config)) with
          | Some e => auth_form {["base" := auth_error_code e]} _discovered_info
          | None =>
              CreateEntry
                ("Multitek Tablet (" +:+ py_str (tablet_ip full_config) +:+ ")")
                full_config
          end
      end
  end.

(** [async_step_user]: the result, and [self._discovered_info]
    afterwards.  [user_input] is the address and port of the form.  The
    line the last [except] clause sends to the log is left out. *)
Definition async_step_user (srv : request -> http_result)
    (_discovered_info : gmap string json) (user_input : option (string * Z))
    : flow_result * gmap string json :=
  match user_input with
  | None => (ShowForm "user" ∅ ∅, _discovered_info)
  | Some (ip, port) =>
      match _test_connection srv ip port with
      | inl e =>
          (ShowForm "user" {["base" := user_error_code e]} ∅, _discovered_info)
      | inr info =>
          match dict_get info "api" (JObj ∅) with
          | JObj api =>
              if py_truthy (dict_get api "auth_required" (JBool false)) then
                (async_step_auth srv info None, info)
              else
                match unique_id_guard (ip +:+ ":" +:+ str_int port) with
                | Some e =>
                    (ShowForm "user" {["base" := user_error_code e]} ∅, info)
                | None =>
                    (CreateEntry ("Multitek Tablet (" +:+ ip +:+ ")")
                                 (MkEntry (JStr ip) (JInt port) false ""),
                     info)
                end
          | _ => (ShowForm "user" {["base" := "unknown"]} ∅, info)
          end
      end
  end.

End Flow.

End MultitekConfigFlow.

(** ** A house with several devices *)

Module House.

Import MultitekRelaySwitch.

Definition lamp : gmap string json :=
  list_to_map
    [("id", JStr "1"); ("type", JInt 1); ("name", JStr "Lamp");
     ("type_name", JStr "Light"); ("state", JBool false)].

Definition shutter : gmap string json :=
  list_to_map
    [("id", JStr "2"); ("type", JInt 2); ("name", JStr "Blind");
     ("type_name", JStr "Shutter")].

Definition spot : gmap string json :=
  list_to_map
    [("id", JStr "3"); ("type", JInt 1); ("name", JStr "Spot");
     ("type_name", JStr "Light"); ("state", JBool true)].

(** A device that reports neither a type nor a name. *)
Definition plug : gmap string json :=
  list_to_map [("id", JStr "4"); ("state", JBool true)].

Definition devices : gmap string (gmap string json) :=
  list_to_map [("1", lamp); ("2", shutter); ("3", spot); ("4", plug)].

(** The coordinator with the switch entities of the house registered. *)
Definition home : coordinator switch :=
  MkCoordinator Scenario.address ∅ devices true (async_setup_entry devices) [].

(** A tablet that acknowledges every command but reports the relay off. *)
Definition stuck_off (req : request) : http_result :=
  Response 200 (inr (JObj {["state" := JBool false]})).

(** A tablet that rejects the key. *)
Definition rejecting (req : request) : http_result :=
  Response 401 (inr (JObj {["message" := JStr "bad key"]})).

(** A tablet that is out of order. *)
Definition broken (req : request) : http_result :=
  Response 500 (inr (JObj {["message" := JStr "relay board offline"]})).

(** A tablet whose device list has an entry that is not an object. *)
Definition garbled (req : request) : http_result :=
  Response 200 (inr (JObj {["devices" := JList [JObj lamp; JStr "oops"]]})).

(** A tablet whose answer has no device list at all. *)
Definition bare (req : request) : http_result :=
  Response 200 (inr (JObj {["version" := JStr "1.0"]})).

(** The switch of the lamp, as [async_setup_entry] makes it. *)
Definition lamp_switch : switch := (__init__ "1" lamp).2.

(** An entry without authentication and one with a key, and a coordinator
    for the latter. *)
Definition plain_entry : entry_data :=
  MkEntry (JStr "192.168.1.50") (JInt 8123) false "".

Definition keyed_entry : entry_data :=
  MkEntry (JStr "192.168.1.50") (JInt 8123) true "s3cret".

Definition keyed : coordinator switch :=
  MkCoordinator Scenario.address {["X-HA-Access" := "s3cret"]} devices true
                (async_setup_entry devices) [].

(** A platform on which no unique id is taken yet. *)
Definition free (unique_id : string) : option exn := None.

(** A tablet whose discovery asks for a key, and one whose discovery does
    not mention authentication. *)
Definition locked (req : request) : http_result :=
  Response 200
    (inr (JObj (list_to_map
                  [("name", JStr "Hall tablet");
                   ("ip", JStr "10.0.0.1");
                   ("api", JObj {["auth_required" := JBool true]})]))).

Definition unlocked (req : request) : http_result :=
  Response 200 (inr (JObj {["name" := JStr "Hall tablet"]})).

(** What the flow has discovered after its user step. *)
Definition discovered : gmap string json :=
  list_to_map [("ip", JStr "192.168.1.50"); ("port", JInt 8123)].

End House.


(** * Properties *)

(** ** Refreshing the snapshot *)

Section Refresh.

Context {RT : Runtime} {L : Type}.
Variable notify : gmap string (gmap string json) -> L -> option exn * L.

Implicit Types (c : coordinator L) (srv : request -> http_result).
Implicit Types (devs : list (gmap string json)).
Implicit Types (snapshot : gmap string (gmap string json)).

Lemma filter_none {A} (P : A → Prop) `{∀ x, Decision (P x)} (l : list A) :
  (∀ x, x ∈ l → ¬ P x) → filter P l = [].
Proof.
  induction l as [|x l IH]; intros Hl; [done|].
  rewrite filter_cons_False by (apply Hl; left).
  apply IH. intros y Hy. apply Hl. by right.
Qed.

Lemma index_devices_total devs snapshot :
  ∃ m, index_devices (JObj <$> devs) snapshot = inr m.
Proof.
  revert snapshot. induction devs as [|d devs IH]; intros snapshot; cbn.
  - eauto.
  - apply IH.
Qed.

(** The loop stores each device under its key; for a given key the last
    device of the list with that key is the one that stays. *)
Lemma index_devices_lookup devs snapshot m k :
  index_devices (JObj <$> devs) snapshot = inr m →
  m !! k = match last (filter (λ d, device_key d = k) devs) with
           | Some d => Some d
           | None => snapshot !! k
           end.
Proof.
  revert snapshot. induction devs as [|d devs IH]; intros snapshot Hm; cbn in Hm.
  - by inversion Hm.
  - rewrite (IH _ Hm), filter_cons. case_decide as Hk.
    + rewrite last_cons. destruct (last _); [done|].
      by rewrite <- Hk, lookup_insert_eq.
    + destruct (last _); [done|]. by rewrite lookup_insert_ne.
Qed.

Lemma index_devices_dom devs snapshot m :
  index_devices (JObj <$> devs) snapshot = inr m →
  dom m = dom snapshot ∪ list_to_set (device_key <$> devs).
Proof.
  revert snapshot. induction devs as [|d devs IH]; intros snapshot Hm; cbn in Hm.
  - inversion Hm. cbn. by rewrite (right_id_L ∅ (∪)).
  - rewrite (IH _ Hm), dom_insert_L. cbn.
    by rewrite (comm_L (∪) {[device_key d]}), <- (assoc_L (∪)).
Qed.

Lemma fetched_update_data srv c devs :
  fetched srv c devs →
  _async_update_data srv c = index_devices (JObj <$> devs) ∅.
Proof.
  intros (body & Hsrv & Hdevs).
  unfold _async_update_data, fetch_devices. rewrite Hsrv.
  rewrite bool_decide_eq_false_2 by (intros Hne; by apply Hne).
  unfold dict_get. rewrite Hdevs. cbn.
  destruct (index_devices_total devs ∅) as [m ->]. done.
Qed.

Lemma async_set_updated_data_data c snapshot :
  data (async_set_updated_data notify c snapshot).2 = snapshot.
Proof.
  unfold async_set_updated_data.
  by destruct (async_update_listeners notify snapshot (listeners c)).
Qed.

Lemma async_set_updated_data_status c snapshot :
  last_update_success (async_set_updated_data notify c snapshot).2
  = last_update_success c.
Proof.
  unfold async_set_updated_data.
  by destruct (async_update_listeners notify snapshot (listeners c)).
Qed.

Lemma async_refresh_ok srv c snapshot :
  _async_update_data srv c = inr snapshot →
  data (async_refresh notify srv c) = snapshot
  ∧ last_update_success (async_refresh notify srv c) = true.
Proof.
  intros Hok. unfold async_refresh. rewrite Hok.
  by rewrite async_set_updated_data_data, async_set_updated_data_status.
Qed.

Lemma async_refresh_error srv c e :
  _async_update_data srv c = inl e →
  async_refresh notify srv c = set_last_update_success false c.
Proof. intros Herr. unfold async_refresh. by rewrite Herr. Qed.

Lemma fetch_failed_update_data srv c :
  fetch_failed srv c → ∃ msg, _async_update_data srv c = inl (UpdateFailed msg).
Proof.
  unfold _async_update_data, fetch_devices.
  intros [-> | [[msg ->] | (status & body & -> & Hstatus)]]; eauto.
  rewrite bool_decide_eq_true_2 by done. eauto.
Qed.

Lemma async_refresh_request srv c :
  devices_request (async_refresh notify srv c) = devices_request c.
Proof.
  unfold async_refresh, async_set_updated_data.
  destruct (_async_update_data srv c); [done|].
  by destruct (async_update_listeners _ _ _).
Qed.

(** C1: after a refresh whose fetch succeeds with the device list [devs],
    the snapshot is the mapping built from that list alone: under each key
    the (last) returned device whose id field, turned into a string, is
    that key, the whole entry as the value, and nothing under any other
    key, whatever the snapshot held before; a device whose id is a string
    is found under that string; when the ids are distinct there is one
    entry per returned device. *)
Theorem refresh_replaces_snapshot srv c devs :
  fetched srv c devs →
  _async_update_data srv c = inr (data (async_refresh notify srv c))
  ∧ last_update_success (async_refresh notify srv c) = true
  ∧ (∀ k, data (async_refresh notify srv c) !! k
          = last (filter (λ d, py_str (dict_get d "id" JNull) = k) devs))
  ∧ (∀ k, (∀ d, d ∈ devs → py_str (dict_get d "id" JNull) ≠ k) →
          data (async_refresh notify srv c) !! k = None)
  ∧ (∀ d s, d ∈ devs → d !! "id" = Some (JStr s) →
            ∃ d', data (async_refresh notify srv c) !! s = Some d'
                  ∧ d' ∈ devs ∧ py_str (dict_get d' "id" JNull) = s)
  ∧ (NoDup ((λ d, py_str (dict_get d "id" JNull)) <$> devs) →
       (∀ d, d ∈ devs →
             data (async_refresh notify srv c) !! py_str (dict_get d "id" JNull)
             = Some d)
       ∧ (∀ d s, d ∈ devs → d !! "id" = Some (JStr s) →
                 data (async_refresh notify srv c) !! s = Some d)
       ∧ size (data (async_refresh notify srv c)) = length devs).
Proof.
  intros Hfetch.
  pose proof (fetched_update_data _ _ _ Hfetch) as Hupd.
  destruct (index_devices_total devs ∅) as [m Hm].
  rewrite Hm in Hupd.
  destruct (async_refresh_ok _ _ _ Hupd) as [-> Hstatus].
  assert (Hlook : ∀ k, m !! k
            = last (filter (λ d, py_str (dict_get d "id" JNull) = k) devs)).
  { intros k. rewrite (index_devices_lookup _ _ _ k Hm), lookup_empty.
    unfold device_key. by destruct (last _). }
  assert (Hdistinct :
    NoDup ((λ d, py_str (dict_get d "id" JNull)) <$> devs) →
    ∀ d, d ∈ devs → m !! py_str (dict_get d "id" JNull) = Some d).
  { intros Hnodup d Hd. rewrite Hlook.
    apply list_elem_of_split in Hd as (l1 & l2 & ->).
    rewrite fmap_app, fmap_cons in Hnodup.
    apply NoDup_app in Hnodup as (_ & Hl1 & Hl2).
    apply NoDup_cons in Hl2 as [Hl2 _].
    rewrite filter_app, filter_cons_True by done.
    rewrite (filter_none _ l2); [by rewrite last_snoc|].
    intros x Hx Hkey. apply Hl2.
    rewrite <- Hkey.
    by apply (list_elem_of_fmap_2 (λ d, py_str (dict_get d "id" JNull))). }
  split_and!; [done|done|done| | |].
  - intros k Hk. rewrite Hlook. apply last_None.
    destruct (filter _ devs) as [|d l] eqn:Hf; [done|].
    assert (d ∈ filter (λ d, py_str (dict_get d "id" JNull) = k) devs) as Hd
      by (rewrite Hf; left).
    apply list_elem_of_filter in Hd as [Hd1 Hd2]. by destruct (Hk d).
  - intros d s Hd Hid. rewrite Hlook.
    assert (d ∈ filter (λ d, py_str (dict_get d "id" JNull) = s) devs) as Hin.
    { apply list_elem_of_filter. split; [|done].
      unfold dict_get. by rewrite Hid. }
    destruct (last (filter _ devs)) as [d'|] eqn:Hlast.
    + exists d'. split; [done|].
      by apply last_Some_elem_of, list_elem_of_filter in Hlast as [Hkey Hd'].
    + apply last_None in Hlast. rewrite Hlast in Hin.
      by apply elem_of_nil in Hin.
  - intros Hnodup. split_and!.
    + by apply Hdistinct.
    + intros d s Hd Hid. rewrite <- (Hdistinct Hnodup d Hd).
      unfold dict_get. by rewrite Hid.
    + rewrite <- size_dom, (index_devices_dom _ _ _ Hm), dom_empty_L.
      rewrite (left_id_L ∅ (∪)).
      change (device_key <$> devs)
        with ((λ d, py_str (dict_get d "id" JNull)) <$> devs).
      rewrite size_list_to_set by done.
      by rewrite length_fmap.
Qed.

(** C10: after a refresh whose fetch succeeds, the keys of the snapshot are
    the string forms of the ids of the returned devices, one entry for each
    distinct string form; of two devices with the same string form the
    later one stays; a device without an id is stored under ["None"]. *)
Theorem snapshot_keys_are_stringified_ids srv c devs :
  fetched srv c devs →
  (∀ k, k ∈ dom (data (async_refresh notify srv c))
        ↔ ∃ d, d ∈ devs ∧ k = py_str (dict_get d "id" JNull))
  ∧ size (data (async_refresh notify srv c))
    = size (list_to_set (device_key <$> devs) : gset string)
  ∧ (∀ (l1 : list (gmap string json)) d1 l2 d2 l3,
       devs = (l1 ++ d1 :: l2 ++ d2 :: l3)%list →
       device_key d1 = device_key d2 →
       (∀ d, d ∈ l3 → device_key d ≠ device_key d2) →
       data (async_refresh notify srv c) !! device_key d1 = Some d2)
  ∧ (∀ d, d ∈ devs → d !! "id" = None →
          device_key d = "None"
          ∧ is_Some (data (async_refresh notify srv c) !! "None")).
Proof.
  intros Hfetch.
  pose proof (fetched_update_data _ _ _ Hfetch) as Hupd.
  destruct (index_devices_total devs ∅) as [m Hm].
  rewrite Hm in Hupd.
  destruct (async_refresh_ok _ _ _ Hupd) as [-> _].
  pose proof (index_devices_dom _ _ _ Hm) as Hdom.
  rewrite dom_empty_L, (left_id_L ∅ (∪)) in Hdom.
  assert (Hkeys : ∀ k, k ∈ dom m ↔ ∃ d, d ∈ devs ∧ k = device_key d).
  { intros k. rewrite Hdom, elem_of_list_to_set, list_elem_of_fmap.
    split; intros (d & Hd1 & Hd2); eauto. }
  split_and!.
  - exact Hkeys.
  - by rewrite <- size_dom, Hdom.
  - intros l1 d1 l2 d2 l3 -> Hsame Hlast.
    rewrite (index_devices_lookup _ _ _ (device_key d1) Hm).
    replace (l1 ++ d1 :: l2 ++ d2 :: l3)%list
      with ((l1 ++ d1 :: l2) ++ d2 :: l3)%list by (by rewrite <- app_assoc).
    rewrite filter_app, filter_cons_True by done.
    rewrite (filter_none _ l3); [by rewrite last_snoc|].
    intros x Hx Hkey. apply (Hlast x Hx). congruence.
  - intros d Hd Hid.
    assert (device_key d = "None") as Hnone
      by (unfold device_key, dict_get; by rewrite Hid).
    split; [done|]. apply elem_of_dom, Hkeys. exists d. by rewrite Hnone.
Qed.

(** C2: when the fetch fails (timeout, connection error, or a status other
    than 200), [_async_update_data] raises [UpdateFailed], the snapshot
    after the refresh is the snapshot before it, and
    [last_update_success] is false. *)
Theorem failed_refresh_keeps_snapshot srv c :
  fetch_failed srv c →
  (∃ msg, _async_update_data srv c = inl (UpdateFailed msg))
  ∧ data (async_refresh notify srv c) = data c
  ∧ last_update_success (async_refresh notify srv c) = false
  ∧ listeners (async_refresh notify srv c) = listeners c.
Proof.
  intros Hfail. destruct (fetch_failed_update_data _ _ Hfail) as [msg Hmsg].
  rewrite (async_refresh_error _ _ _ Hmsg). eauto.
Qed.

(** Over a run of the polling loop: after a refresh that succeeded with
    [snapshot], any number of failing refreshes later the snapshot is still
    [snapshot]. *)
Lemma failed_refreshes_keep_last_fetch srvs srv c snapshot :
  _async_update_data srv c = inr snapshot →
  Forall (λ s, fetch_failed s c) srvs →
  data (refresh_all notify srvs (async_refresh notify srv c)) = snapshot
  ∧ (srvs ≠ [] →
     last_update_success (refresh_all notify srvs (async_refresh notify srv c))
     = false).
Proof.
  intros Hok Hall.
  destruct (async_refresh_ok _ _ _ Hok) as [Hdata _].
  pose proof (async_refresh_request srv c) as Hreq.
  revert Hdata Hreq. generalize (async_refresh notify srv c) as c1.
  induction Hall as [|s srvs Hs Hall IH] using Forall_ind; intros c1 Hdata Hreq.
  - done.
  - cbn.
    assert (fetch_failed s c1) as Hs1 by (unfold fetch_failed; by rewrite Hreq).
    destruct (fetch_failed_update_data _ _ Hs1) as [msg Hmsg].
    pose proof (async_refresh_error _ _ _ Hmsg) as Hstep.
    destruct (IH (async_refresh notify s c1)) as [IH1 IH2].
    + by rewrite Hstep.
    + by rewrite async_refresh_request.
    + split; [done|]. intros _. destruct srvs as [|s' srvs']; [|by apply IH2].
      cbn. by rewrite Hstep.
Qed.

End Refresh.

(** ** Sending a command *)

Section Commands.

Context {RT : Runtime} {L : Type}.
Variable notify : gmap string (gmap string json) -> L -> option exn * L.

Implicit Types (c : coordinator L) (srv : request -> http_result).
Implicit Types (old result : gmap string json).

Lemma send_relay_command_data srv c device_id command value :
  data (send_relay_command notify srv c device_id command value).2
  = data (relay_attempt notify srv c device_id command value).2.
Proof.
  unfold send_relay_command.
  by destruct (relay_attempt _ _ _ _ _ _) as [[[]|] ?].
Qed.

Lemma send_relay_command_returns srv c device_id command value res :
  (relay_attempt notify srv c device_id command value).1 = inr res →
  (send_relay_command notify srv c device_id command value).1 = inr res.
Proof.
  unfold send_relay_command.
  destruct (relay_attempt _ _ _ _ _ _) as [[[]|] ?]; by cbn.
Qed.

(** What the [try] block does when the tablet answers 200 with an object
    and the device is in the snapshot. *)
Lemma relay_attempt_patch srv c device_id command value old result :
  data c !! device_id = Some old →
  srv (relay_request c device_id command value)
  = Response 200 (inr (JObj result)) →
  data (relay_attempt notify srv c device_id command value).2
  = <[device_id := result ∪ old]> (data c)
  ∧ ((async_update_listeners notify (<[device_id := result ∪ old]> (data c))
                             (listeners c)).1 = None →
     (relay_attempt notify srv c device_id command value).1
     = inr (JObj result))
  ∧ (∀ res, (relay_attempt notify srv c device_id command value).1 = inr res →
            res = JObj result).
Proof.
  intros Hold Hsrv. unfold relay_attempt. rewrite Hsrv.
  rewrite bool_decide_eq_false_2 by (intros Hne; by apply Hne).
  rewrite Hold. cbn. unfold async_set_updated_data. cbn.
  destruct (async_update_listeners _ _ _) as [[e|] ls]; cbn.
  - split_and!; [done|done|]. by intros res [=].
  - split_and!; [done|done|]. by intros res [=].
Qed.

(** C3: when the device is in the snapshot and the tablet answers the
    command with status 200 and the fields [result], the entry of the
    device afterwards is the old entry overwritten by exactly those fields
    (a field the answer lacks keeps its old value), every other entry is as
    before, and the answer is what the caller gets (unless an observer
    raises while it is notified). *)
Theorem command_patches_one_entry srv c device_id command value old result :
  data c !! device_id = Some old →
  srv (relay_request c device_id command value)
  = Response 200 (inr (JObj result)) →
  (∃ entry,
      data (send_relay_command notify srv c device_id command value).2
        !! device_id = Some entry
      ∧ ∀ field, entry !! field = match result !! field with
                                  | Some v => Some v
                                  | None => old !! field
                                  end)
  ∧ (∀ k, k ≠ device_id →
          data (send_relay_command notify srv c device_id command value).2 !! k
          = data c !! k)
  ∧ ((async_update_listeners notify (<[device_id := result ∪ old]> (data c))
                             (listeners c)).1 = None →
     (send_relay_command notify srv c device_id command value).1
     = inr (JObj result))
  ∧ (∀ res,
       (send_relay_command notify srv c device_id command value).1 = inr res →
       res = JObj result).
Proof.
  intros Hold Hsrv.
  destruct (relay_attempt_patch _ _ _ _ _ _ _ Hold Hsrv) as (Hdata & Hret & Hres).
  rewrite send_relay_command_data, Hdata. split_and!.
  - exists (result ∪ old). split; [by rewrite lookup_insert_eq|].
    intros field. rewrite lookup_union.
    by destruct (result !! field), (old !! field).
  - intros k Hk. by rewrite lookup_insert_ne.
  - intros Hquiet. by apply send_relay_command_returns, Hret.
  - intros res. unfold send_relay_command.
    destruct (relay_attempt _ _ _ _ _ _) as [[[]|res'] ?] eqn:Hat;
      cbn; intros [=]. subst. by apply Hres.
Qed.

(** C4: when the device is not in the snapshot and the tablet answers the
    command with status 200, nothing is raised, the coordinator (its
    snapshot included) is left as it was, and the caller gets the
    answer. *)
Theorem command_on_unknown_device srv c device_id command value answer :
  data c !! device_id = None →
  srv (relay_request c device_id command value) = Response 200 (inr answer) →
  send_relay_command notify srv c device_id command value = (inr answer, c).
Proof.
  intros Hnone Hsrv. unfold send_relay_command, relay_attempt. rewrite Hsrv.
  rewrite bool_decide_eq_false_2 by (intros Hne; by apply Hne).
  by rewrite Hnone.
Qed.

Lemma relay_attempt_failed srv c device_id command value :
  command_failed srv c device_id command value →
  ∃ e, relay_attempt notify srv c device_id command value = (inl e, c).
Proof.
  unfold relay_attempt.
  intros [[e ->] | (status & body & -> & Hstatus)]; [eauto|].
  rewrite bool_decide_eq_true_2 by done.
  destruct body as [e|[]]; eauto.
Qed.

(** C5, as the code has it: when the transport call of a command fails,
    the caller gets the exception itself: whatever the call raised,
    unchanged ([TimeoutError] on a timeout); on a status other than 200,
    [Exception("Command failed: ...")] when the body is an object, what
    reading the body raised when that fails, and [AttributeError] when the
    body is no object.  One error is logged, which names the device; the
    snapshot, the status and the observers are left as they were. *)
Theorem failed_command_keeps_snapshot srv c device_id command value :
  command_failed srv c device_id command value →
  ∃ e,
    (send_relay_command notify srv c device_id command value).1 = inl e
    ∧ data (send_relay_command notify srv c device_id command value).2 = data c
    ∧ listeners (send_relay_command notify srv c device_id command value).2
      = listeners c
    ∧ last_update_success
        (send_relay_command notify srv c device_id command value).2
      = last_update_success c
    ∧ log (send_relay_command notify srv c device_id command value).2
      = (log c ++
         [match e with
          | TimeoutError =>
              LogError "Timeout sending command to device %s"
                       [ArgStr device_id]
          | _ =>
              LogError "Error sending command to device %s: %s"
                       [ArgStr device_id; ArgExn e]
          end])%list
    ∧ (∃ fmt rest,
         log (send_relay_command notify srv c device_id command value).2
         = (log c ++ [LogError fmt (ArgStr device_id :: rest)])%list)
    ∧ (srv (relay_request c device_id command value) = Raised TimeoutError →
       e = TimeoutError)
    ∧ (∀ raised,
         srv (relay_request c device_id command value) = Raised raised →
         e = raised)
    ∧ (∀ status raised,
         srv (relay_request c device_id command value)
         = Response status (inl raised) →
         status ≠ 200 → e = raised)
    ∧ (∀ status error_data,
         srv (relay_request c device_id command value)
         = Response status (inr (JObj error_data)) →
         status ≠ 200 →
         e = PyException
               ("Command failed: " +:+
                py_str (dict_get error_data "message" (JStr "Unknown error"))))
    ∧ (∀ status body,
         srv (relay_request c device_id command value)
         = Response status (inr body) →
         status ≠ 200 → (∀ error_data, body ≠ JObj error_data) →
         e = AttributeError).
Proof.
  intros Hfail.
  destruct (relay_attempt_failed _ _ _ _ _ Hfail) as [e He].
  exists e. unfold send_relay_command. rewrite He.
  assert (Hraised : ∀ raised,
    srv (relay_request c device_id command value) = Raised raised →
    e = raised).
  { intros raised Hsrv. unfold relay_attempt in He. rewrite Hsrv in He.
    by inversion He. }
  assert (Hbody : ∀ status raised,
    srv (relay_request c device_id command value)
    = Response status (inl raised) →
    status ≠ 200 → e = raised).
  { intros status raised Hsrv Hne. unfold relay_attempt in He.
    rewrite Hsrv, bool_decide_eq_true_2 in He by done. by inversion He. }
  assert (Hstatus : ∀ status error_data,
    srv (relay_request c device_id command value)
    = Response status (inr (JObj error_data)) →
    status ≠ 200 →
    e = PyException
          ("Command failed: " +:+
           py_str (dict_get error_data "message" (JStr "Unknown error")))).
  { intros status error_data Hsrv Hne. unfold relay_attempt in He.
    rewrite Hsrv, bool_decide_eq_true_2 in He by done. by inversion He. }
  assert (Hother : ∀ status body,
    srv (relay_request c device_id command value)
    = Response status (inr body) →
    status ≠ 200 → (∀ error_data, body ≠ JObj error_data) →
    e = AttributeError).
  { intros status body Hsrv Hne Hobj. unfold relay_attempt in He.
    rewrite Hsrv, bool_decide_eq_true_2 in He by done.
    destruct body; try (by inversion He). by destruct (Hobj m). }
  destruct e; cbn; split_and!; eauto.
Qed.

(** C9, as the code has it: [test_connection] never raises; when the
    tablet answers 200 with an object that has an [online] field it
    returns that field as it is, and [False] in every other case; so it
    returns [True] exactly when the status is 200 and [online] is [True],
    and a boolean whenever [online], if present, is one. *)
Theorem test_connection_returns_online srv c :
  (∀ body v,
     srv (status_request c) = Response 200 (inr (JObj body)) →
     body !! "online" = Some v →
     test_connection srv c = v)
  ∧ ((¬ ∃ body v, srv (status_request c) = Response 200 (inr (JObj body))
                  ∧ body !! "online" = Some v) →
     test_connection srv c = JBool false)
  ∧ (test_connection srv c = JBool true
     ↔ ∃ body, srv (status_request c) = Response 200 (inr (JObj body))
               ∧ body !! "online" = Some (JBool true))
  ∧ ((∀ body v, srv (status_request c) = Response 200 (inr (JObj body)) →
                body !! "online" = Some v → ∃ b, v = JBool b) →
     ∃ b, test_connection srv c = JBool b).
Proof.
  unfold test_connection, dict_get.
  destruct (srv (status_request c)) as [e|status [e|doc]]; cbn.
  - split_and!; [done|done| |by eauto]. split; [done|]. by intros (? & ? & ?).
  - case_bool_decide; (split_and!; [done|done| |by eauto]);
      (split; [done|]); by intros (? & ? & ?).
  - case_bool_decide as Hstatus.
    + subst status. destruct doc as [| | | | |m];
        try (split_and!; [done|done| |by eauto]; split; [done|];
             by intros (? & ? & ?)).
      destruct (m !! "online") as [v|] eqn:Hv; cbn.
      * split_and!.
        -- intros body v' [= <-] Hv'. congruence.
        -- intros Hno. destruct Hno. eauto.
        -- split; [intros ->; eauto|]. intros (body & [= <-] & Hb). congruence.
        -- intros Hbool. by apply (Hbool m v).
      * split_and!.
        -- intros body v' [= <-] Hv'. congruence.
        -- done.
        -- split; [done|]. intros (body & [= <-] & Hb). congruence.
        -- by eauto.
    + split_and!; [|done| |by eauto].
      * intros body v [= ? ?]. done.
      * split; [done|]. intros (body & [= ? ?] & _). done.
Qed.

End Commands.

(** ** The views: sensors and switches *)

Section Views.

Context {RT : Runtime}.

Import MultitekRelaySwitch.

Lemma lamp_snapshot {L} (notify : gmap string (gmap string json) → L → option exn * L)
    srv (c : coordinator L) :
  fetched srv c [Scenario.lamp] →
  data (async_refresh notify srv c) = {["1" := Scenario.lamp]}
  ∧ last_update_success (async_refresh notify srv c) = true.
Proof.
  intros Hfetch. apply async_refresh_ok.
  by rewrite (fetched_update_data _ _ _ Hfetch).
Qed.

(** C6, as the code has it: when the first refresh succeeds with the
    device list [{id:"1", type:1, name:"Lamp", state:false}], the
    device-count sensor reports 1, its grouping counts the entries by their
    [type_name] field and so reports [{"unknown": 1}] for this entry, which
    has none, and the connection-status sensor reports ["Connected"]. *)
Theorem first_refresh_views {L}
    (notify : gmap string (gmap string json) → L → option exn * L)
    srv (c : coordinator L) :
  fetched srv c [Scenario.lamp] →
  MultitekDeviceCountSensor.native_value (async_refresh notify srv c) = 1
  ∧ MultitekDeviceCountSensor.extra_state_attributes (async_refresh notify srv c)
    = inr {[KStr "unknown" := 1]}
  ∧ MultitekConnectionStatusSensor.native_value (async_refresh notify srv c)
    = "Connected".
Proof.
  intros Hfetch. destruct (lamp_snapshot notify _ _ Hfetch) as [Hdata Hstatus].
  unfold MultitekDeviceCountSensor.native_value,
    MultitekDeviceCountSensor.extra_state_attributes,
    MultitekConnectionStatusSensor.native_value.
  rewrite Hdata, Hstatus. split_and!; [|vm_compute|]; reflexivity.
Qed.

(** With a [type_name] in the entry, the grouping is by that name. *)
Lemma grouping_by_type_name {L} (c : coordinator L) device_id device name :
  data c = {[device_id := device]} →
  device !! "type_name" = Some (JStr name) →
  MultitekDeviceCountSensor.extra_state_attributes c = inr {[KStr name := 1]}.
Proof.
  intros Hdata Hname. unfold MultitekDeviceCountSensor.extra_state_attributes.
  rewrite Hdata, map_to_list_singleton. cbn.
  unfold MultitekDeviceCountSensor.count_device, dict_get. rewrite Hname. cbn.
  by rewrite lookup_empty.
Qed.

(** A round of notification in which nobody raises has called every
    listener. *)
Lemma async_update_listeners_quiet {L}
    (notify : gmap string (gmap string json) → L → option exn * L) d ls i l :
  (async_update_listeners notify d ls).1 = None →
  ls !! i = Some l →
  (async_update_listeners notify d ls).2 !! i = Some (notify d l).2.
Proof.
  revert i. induction ls as [|l0 ls IH]; intros i Hquiet Hi; [done|].
  cbn in *. destruct (notify d l0) as [[e|] l0'] eqn:Hl0; [done|].
  destruct (async_update_listeners notify d ls) as [r ls'] eqn:Hls.
  cbn in *. destruct i as [|i]; cbn in *.
  - inversion Hi; subst. by rewrite Hl0.
  - by apply IH.
Qed.

(** The defect behind C7, in general: a toggle that the tablet
    acknowledges leaves the switch with [is_on] the negation of what its
    listener has just read from the patched snapshot. *)
Lemma toggle_negates_confirmed_state srv (c : coordinator switch) i self old result :
  listeners c !! i = Some self →
  data c !! _device_id self = Some old →
  srv (relay_request c (_device_id self) "toggle" JNull)
  = Response 200 (inr (JObj result)) →
  (async_update_listeners _handle_coordinator_update
     (<[_device_id self := result ∪ old]> (data c)) (listeners c)).1 = None →
  ∃ self',
    (async_toggle srv c i).1 = None
    ∧ listeners (async_toggle srv c i).2 !! i = Some self'
    ∧ _attr_is_on self'
      = JBool (negb (py_truthy
          (_attr_is_on
             (_handle_coordinator_update
                (<[_device_id self := result ∪ old]> (data c)) self).2)))
    ∧ written self' = Some (_attr_is_on self').
Proof.
  intros Hself Hold Hsrv Hquiet.
  unfold async_toggle, command_then. rewrite Hself.
  unfold send_relay_command, relay_attempt. rewrite Hsrv.
  rewrite bool_decide_eq_false_2 by (intros Hne; by apply Hne).
  rewrite Hold. cbn. unfold async_set_updated_data. cbn.
  pose proof (async_update_listeners_quiet _ _ _ _ _ Hquiet Hself) as Hi.
  destruct (async_update_listeners _ _ _) as [r ls]. cbn in Hquiet, Hi.
  subst r. cbn. eexists. split; [done|].
  rewrite list_lookup_alter_eq, Hi. cbn. done.
Qed.

End Views.

(** ** The properties on the tablet with one lamp *)

Import MultitekRelaySwitch Scenario.

Lemma refresh_replaces_snapshot_witness :
  fetched tablet House.home [lamp]
  ∧ data House.home !! "3" = Some House.spot
  ∧ data House.home !! "1" = Some House.lamp
  ∧ data (@async_refresh runtime switch _handle_coordinator_update
            tablet House.home) !! "3" = None
  ∧ data (@async_refresh runtime switch _handle_coordinator_update
            tablet House.home) !! "1" = Some lamp
  ∧ size (data (@async_refresh runtime switch _handle_coordinator_update
                  tablet House.home)) = 1%nat.
Proof.
  assert (fetched tablet House.home [lamp]) as Hfetch
    by (eexists; split; reflexivity).
  destruct (@refresh_replaces_snapshot runtime switch
              _handle_coordinator_update tablet House.home [lamp] Hfetch)
    as (_ & _ & Hlookup & _ & _ & Hdistinct).
  destruct Hdistinct as (_ & Hstring & Hsize).
  { apply NoDup_singleton. }
  split; [exact Hfetch|]. split; [reflexivity|]. split; [reflexivity|].
  split; [rewrite Hlookup; reflexivity|].
  split; [|exact Hsize].
  apply Hstring; [left|reflexivity].
Defined.

Lemma snapshot_keys_are_stringified_ids_witness :
  fetched twin_tablet fresh twins
  ∧ data (@async_refresh runtime switch _handle_coordinator_update
            twin_tablet fresh) !! "7"
    = Some (list_to_map [("id", JStr "7"); ("name", JStr "new")]).
Proof.
  assert (fetched twin_tablet fresh twins) as Hfetch
    by (eexists; split; reflexivity).
  destruct (@snapshot_keys_are_stringified_ids runtime switch
              _handle_coordinator_update twin_tablet fresh twins Hfetch)
    as (_ & _ & Hlast & _).
  split; [exact Hfetch|].
  refine (Hlast [] _ [] _ [] eq_refl eq_refl _).
  intros d Hd. by apply elem_of_nil in Hd.
Defined.

Lemma failed_refresh_keeps_snapshot_witness :
  fetch_failed silent polled
  ∧ data (@async_refresh runtime switch _handle_coordinator_update
            silent polled) = data polled
  ∧ last_update_success
      (@async_refresh runtime switch _handle_coordinator_update silent polled)
    = false.
Proof.
  assert (fetch_failed silent polled) as Hfail by (left; reflexivity).
  destruct (@failed_refresh_keeps_snapshot runtime switch
              _handle_coordinator_update silent polled Hfail)
    as (_ & Hdata & Hstatus & _).
  split; [exact Hfail|]. split; [exact Hdata|exact Hstatus].
Defined.

Lemma command_patches_one_entry_witness :
  data installed !! "1" = Some lamp
  ∧ toggled (relay_request installed "1" "toggle" JNull)
    = Response 200
        (inr (JObj (list_to_map [("id", JStr "1"); ("state", JBool true)])))
  ∧ ∃ entry,
      data (@send_relay_command runtime switch _handle_coordinator_update
              toggled installed "1" "toggle" JNull).2 !! "1" = Some entry
      ∧ entry !! "state" = Some (JBool true)
      ∧ entry !! "name" = Some (JStr "Lamp").
Proof.
  assert (data installed !! "1" = Some lamp) as Hold by reflexivity.
  assert (toggled (relay_request installed "1" "toggle" JNull)
          = Response 200
              (inr (JObj (list_to_map
                            [("id", JStr "1"); ("state", JBool true)]))))
    as Hsrv by reflexivity.
  destruct (@command_patches_one_entry runtime switch
              _handle_coordinator_update toggled installed "1" "toggle" JNull
              lamp _ Hold Hsrv)
    as ((entry & Hentry & Hfields) & _).
  split; [exact Hold|]. split; [exact Hsrv|].
  exists entry. split; [exact Hentry|].
  rewrite !Hfields. split; reflexivity.
Defined.

Lemma command_on_unknown_device_witness :
  data installed !! "9" = None
  ∧ obliging (relay_request installed "9" "set_state" (JBool true))
    = Response 200 (inr (JObj {["state" := JBool true]}))
  ∧ @send_relay_command runtime switch _handle_coordinator_update
      obliging installed "9" "set_state" (JBool true)
    = (inr (JObj {["state" := JBool true]}), installed).
Proof.
  assert (data installed !! "9" = None) as Hnone by reflexivity.
  split; [exact Hnone|]. split; [reflexivity|].
  exact (@command_on_unknown_device runtime switch _handle_coordinator_update
           obliging installed "9" "set_state" (JBool true) _ Hnone eq_refl).
Defined.

Lemma failed_command_keeps_snapshot_witness :
  command_failed House.broken installed "1" "toggle" JNull
  ∧ (@send_relay_command runtime switch _handle_coordinator_update
       House.broken installed "1" "toggle" JNull).1
    = inl (PyException "Command failed: relay board offline")
  ∧ data (@send_relay_command runtime switch _handle_coordinator_update
            House.broken installed "1" "toggle" JNull).2 = data installed
  ∧ log (@send_relay_command runtime switch _handle_coordinator_update
           House.broken installed "1" "toggle" JNull).2
    = [LogError "Error sending command to device %s: %s"
                [ArgStr "1";
                 ArgExn (PyException "Command failed: relay board offline")]].
Proof.
  assert (command_failed House.broken installed "1" "toggle" JNull) as Hfail.
  { right. eexists _, _. split; [reflexivity|]. intros Heq. discriminate Heq. }
  destruct (@failed_command_keeps_snapshot runtime switch
              _handle_coordinator_update House.broken installed "1" "toggle"
              JNull Hfail)
    as (e & Hret & Hdata & _ & _ & Hlog & _ & _ & _ & _ & Hmessage & _).
  assert (e = PyException "Command failed: relay board offline") as ->.
  { rewrite (Hmessage 500 {["message" := JStr "relay board offline"]});
      [reflexivity|reflexivity|]. intros Heq. discriminate Heq. }
  split; [exact Hfail|]. split; [exact Hret|]. split; [exact Hdata|].
  exact Hlog.
Defined.

(** C5 as it is stated fails: on a timeout the caller gets the
    [TimeoutError] of the transport, which is no [CommandFailed] and
    carries neither the device id nor a reason. *)
Lemma failed_command_is_no_CommandFailed :
  command_failed silent installed "1" "toggle" JNull
  ∧ (@send_relay_command runtime switch _handle_coordinator_update
       silent installed "1" "toggle" JNull).1 = inl TimeoutError
  ∧ ¬ ∃ e,
        (@send_relay_command runtime switch _handle_coordinator_update
           silent installed "1" "toggle" JNull).1 = inl e
        ∧ is_CommandFailed "1" e.
Proof.
  split; [left; eexists; reflexivity|]. split; [reflexivity|].
  intros (e & He & reason & ->). cbv in He. discriminate He.
Qed.

Lemma first_refresh_views_witness :
  fetched tablet fresh [lamp]
  ∧ MultitekDeviceCountSensor.native_value polled = 1
  ∧ MultitekDeviceCountSensor.extra_state_attributes polled
    = inr {[KStr "unknown" := 1]}
  ∧ MultitekConnectionStatusSensor.native_value polled = "Connected".
Proof.
  assert (fetched tablet fresh [lamp]) as Hfetch
    by (eexists; split; reflexivity).
  split; [exact Hfetch|].
  exact (@first_refresh_views runtime switch _handle_coordinator_update
           tablet fresh Hfetch).
Defined.

(** C6 as it is stated fails: for the entry of the scenario, which has no
    [type_name], the grouping is not [{"Light": 1}]. *)
Lemma first_refresh_grouping_is_not_Light :
  fetched tablet fresh [lamp]
  ∧ ¬ (MultitekDeviceCountSensor.native_value polled = 1
       ∧ MultitekDeviceCountSensor.extra_state_attributes polled
         = inr {[KStr "Light" := 1]}
       ∧ MultitekConnectionStatusSensor.native_value polled = "Connected").
Proof.
  split; [eexists; split; reflexivity|].
  intros (_ & Hgroup & _).
  assert (MultitekDeviceCountSensor.extra_state_attributes polled
          = inr {[KStr "unknown" := 1]}) as Hunknown
    by (vm_compute; reflexivity).
  rewrite Hunknown in Hgroup.
  apply (f_equal (λ r, match r with
                       | inr m => m !! KStr "Light"
                       | inl _ => None
                       end)) in Hgroup.
  vm_compute in Hgroup. discriminate Hgroup.
Qed.

(** C7, on the code: the tablet acknowledges the toggle of device 1 with
    [{id:"1", state:true}] and the snapshot takes the new state, but the
    switch entity ends up reporting off: its listener has set [is_on] from
    the snapshot before [async_toggle] negates it.  The device count and
    its grouping are as before. *)
Theorem toggle_leaves_switch_off :
  (@async_toggle runtime toggled installed 0).1 = None
  ∧ data (@async_toggle runtime toggled installed 0).2 !! "1"
      ≫= lookup "state" = Some (JBool true)
  ∧ (_attr_is_on <$> listeners (@async_toggle runtime toggled installed 0).2)
    = [JBool false]
  ∧ (written <$> listeners (@async_toggle runtime toggled installed 0).2)
    = [Some (JBool false)]
  ∧ (_device_id <$> listeners (@async_toggle runtime toggled installed 0).2)
    = ["1"]
  ∧ MultitekDeviceCountSensor.native_value
      (@async_toggle runtime toggled installed 0).2
    = MultitekDeviceCountSensor.native_value installed
  ∧ MultitekDeviceCountSensor.extra_state_attributes
      (@async_toggle runtime toggled installed 0).2
    = MultitekDeviceCountSensor.extra_state_attributes installed.
Proof. split_and!; vm_compute; reflexivity. Qed.

(** The command by itself, without the assignment that follows it in
    [async_toggle], leaves the switch on. *)
Lemma command_alone_turns_switch_on :
  (@send_relay_command runtime switch _handle_coordinator_update
     toggled installed "1" "toggle" JNull).1
  = inr (JObj (list_to_map [("id", JStr "1"); ("state", JBool true)]))
  ∧ (_attr_is_on <$>
       listeners (@send_relay_command runtime switch _handle_coordinator_update
                    toggled installed "1" "toggle" JNull).2)
    = [JBool true].
Proof. split; vm_compute; reflexivity. Qed.

Lemma test_connection_returns_online_witness :
  numeric_status (status_request fresh)
  = Response 200 (inr (JObj {["online" := JInt 1]}))
  ∧ test_connection numeric_status fresh = JInt 1.
Proof.
  split; [reflexivity|].
  destruct (@test_connection_returns_online switch numeric_status fresh)
    as (Honline & _).
  exact (Honline {["online" := JInt 1]} (JInt 1) eq_refl eq_refl).
Defined.

(** C9 as it is stated fails: when the tablet reports [online] as the
    number 1, what [test_connection] returns is that number, not a
    boolean. *)
Lemma test_connection_is_not_always_boolean :
  test_connection numeric_status fresh = JInt 1
  ∧ ¬ ∃ b, test_connection numeric_status fresh = JBool b.
Proof. split; [reflexivity|]. intros [b Hb]. discriminate Hb. Qed.

(** * Further properties of the code *)

(** ** Fetching the device list *)

Section FetchFacts.

Context {RT : Runtime} {L : Type}.

Implicit Types (c : coordinator L) (srv : request -> http_result).

(** X1: whatever the tablet does, [_async_update_data] never lets an
    [asyncio.TimeoutError] or an [aiohttp.ClientError] out: both leave it
    as [UpdateFailed]. *)
Theorem update_data_wraps_transport_errors srv c e :
  _async_update_data srv c = inl e →
  e ≠ TimeoutError ∧ ∀ msg, e ≠ ClientError msg.
Proof.
  unfold _async_update_data.
  destruct (fetch_devices srv c) as [[]|]; intros [= <-]; done.
Qed.

(** X2: an answer with status 200 whose body is an object without a
    [devices] field counts as an empty device list: the result is the empty
    snapshot, not an error. *)
Theorem missing_devices_is_empty_snapshot srv c body :
  srv (devices_request c) = Response 200 (inr (JObj body)) →
  body !! "devices" = None →
  _async_update_data srv c = inr ∅.
Proof.
  intros Hsrv Hnone. unfold _async_update_data, fetch_devices.
  rewrite Hsrv, bool_decide_eq_false_2 by (intros Hne; by apply Hne).
  unfold dict_get. by rewrite Hnone.
Qed.

Lemma index_devices_malformed items snapshot :
  (∃ v, v ∈ items ∧ ∀ m, v ≠ JObj m) →
  index_devices items snapshot = inl AttributeError.
Proof.
  revert snapshot. induction items as [|item items IH]; intros snapshot (v & Hv & Hobj).
  - by apply elem_of_nil in Hv.
  - apply elem_of_cons in Hv as [->|Hv].
    + destruct item; try done. by destruct (Hobj m).
    + destruct item; try done. cbn. apply IH. eauto.
Qed.

(** X3: one element of the device list that is not an object makes the
    whole fetch fail with [AttributeError], wherever it stands in the list:
    no partial snapshot is returned, and the failure is not an
    [UpdateFailed]. *)
Theorem malformed_device_fails_fetch srv c body items :
  srv (devices_request c) = Response 200 (inr (JObj body)) →
  body !! "devices" = Some (JList items) →
  (∃ v, v ∈ items ∧ ∀ m, v ≠ JObj m) →
  _async_update_data srv c = inl AttributeError.
Proof.
  intros Hsrv Hdevs Hbad. unfold _async_update_data, fetch_devices.
  rewrite Hsrv, bool_decide_eq_false_2 by (intros Hne; by apply Hne).
  unfold dict_get. rewrite Hdevs. cbn.
  by rewrite (index_devices_malformed _ _ Hbad).
Qed.

End FetchFacts.

(** ** Commands *)

Section CommandFacts.

Context {RT : Runtime} {L : Type}.
Variable notify : gmap string (gmap string json) -> L -> option exn * L.

Implicit Types (c : coordinator L) (srv : request -> http_result).

(** What the [try] block of [send_relay_command] can do to the
    coordinator. *)
Lemma relay_attempt_frame srv c device_id command value :
  base_url (relay_attempt notify srv c device_id command value).2 = base_url c
  ∧ headers (relay_attempt notify srv c device_id command value).2 = headers c
  ∧ log (relay_attempt notify srv c device_id command value).2 = log c
  ∧ (data (relay_attempt notify srv c device_id command value).2 = data c
     ∨ ∃ entry entry',
         data c !! device_id = Some entry
         ∧ data (relay_attempt notify srv c device_id command value).2
           = <[device_id := entry']> (data c)).
Proof.
  unfold relay_attempt.
  destruct (srv _) as [e|status [e|answer]]; cbn.
  - split_and!; eauto.
  - case_bool_decide; split_and!; eauto.
  - case_bool_decide.
    + destruct answer; cbn; split_and!; eauto.
    + destruct (data c !! device_id) as [entry|] eqn:Hentry;
        [|split_and!; eauto].
      destruct (dict_update entry answer) as [[e|] entry']; cbn.
      * split_and!; eauto.
      * unfold async_set_updated_data; cbn.
        destruct (async_update_listeners _ _ _) as [[e|] ls]; cbn;
          split_and!; eauto.
Qed.

Lemma send_relay_command_address srv c device_id command value :
  base_url (send_relay_command notify srv c device_id command value).2
  = base_url c
  ∧ headers (send_relay_command notify srv c device_id command value).2
    = headers c.
Proof.
  destruct (relay_attempt_frame srv c device_id command value)
    as (Hurl & Hhdr & _).
  unfold send_relay_command.
  by destruct (relay_attempt _ _ _ _ _ _) as [[[]|] ?].
Qed.

(** X4: a fetch pays no attention to what the coordinator holds: after a
    command, whatever it did to the snapshot, the observers and the log,
    [_async_update_data] returns what it would have returned before it. *)
Theorem update_data_after_command srv srv' c device_id command value :
  _async_update_data srv
    (send_relay_command notify srv' c device_id command value).2
  = _async_update_data srv c.
Proof.
  destruct (send_relay_command_address srv' c device_id command value)
    as [Hurl Hhdr].
  unfold _async_update_data, fetch_devices, devices_request.
  by rewrite Hurl, Hhdr.
Qed.

(** X5: a command never adds a device to the snapshot nor removes one, and
    it never changes the entry of a device other than the one it
    addresses; this holds for every answer of the tablet, errors
    included. *)
Theorem command_touches_one_entry srv c device_id command value :
  dom (data (send_relay_command notify srv c device_id command value).2)
  = dom (data c)
  ∧ ∀ k, k ≠ device_id →
         data (send_relay_command notify srv c device_id command value).2 !! k
         = data c !! k.
Proof.
  rewrite send_relay_command_data.
  destruct (relay_attempt_frame srv c device_id command value)
    as (_ & _ & _ & [-> | (entry & entry' & Hentry & ->)]); [done|].
  split.
  - by apply dom_insert_lookup_L.
  - intros k Hk. by rewrite lookup_insert_ne.
Qed.

(** X6: [send_relay_command] writes to the error log exactly when it
    raises: nothing when it returns, and one record that names the device
    when it raises, whatever the reason. *)
Theorem command_logs_exactly_on_failure srv c device_id command value :
  match (send_relay_command notify srv c device_id command value).1 with
  | inr _ =>
      log (send_relay_command notify srv c device_id command value).2 = log c
  | inl e =>
      ∃ fmt rest,
        log (send_relay_command notify srv c device_id command value).2
        = (log c ++ [LogError fmt (ArgStr device_id :: rest)])%list
  end.
Proof.
  destruct (relay_attempt_frame srv c device_id command value)
    as (_ & _ & Hlog & _).
  unfold send_relay_command.
  destruct (relay_attempt _ _ _ _ _ _) as [[e|res] c']; cbn in *.
  - destruct e; cbn; rewrite Hlog; eauto.
  - done.
Qed.

Lemma relay_attempt_request srv c device_id command value command' value' :
  relay_request c device_id command value
  = relay_request c device_id command' value' →
  relay_attempt notify srv c device_id command value
  = relay_attempt notify srv c device_id command' value'.
Proof. intros Hreq. unfold relay_attempt. by rewrite Hreq. Qed.

(** X7: the command name is only compared with ["toggle"]: every other
    name, known or not, is carried out as a state-set with the given value;
    and a toggle pays no attention to its value. *)
Theorem unknown_command_sets_state srv c device_id command value :
  command ≠ "toggle" →
  send_relay_command notify srv c device_id command value
  = send_relay_command notify srv c device_id "set_state" value
  ∧ ∀ value',
      send_relay_command notify srv c device_id "toggle" value'
      = send_relay_command notify srv c device_id "toggle" value.
Proof.
  intros Hcmd. split.
  - unfold send_relay_command.
    rewrite (relay_attempt_request srv c device_id command value
               "set_state" value); [done|].
    unfold relay_request. by rewrite bool_decide_eq_false_2.
  - intros value'. unfold send_relay_command.
    by rewrite (relay_attempt_request srv c device_id "toggle" value'
                  "toggle" value).
Qed.

(** X8: the patch is idempotent: when the tablet gives the same answer to
    the same command twice, the snapshot after the second command is the
    snapshot after the first. *)
Theorem repeated_command_same_snapshot srv c device_id command value old result :
  data c !! device_id = Some old →
  srv (relay_request c device_id command value)
  = Response 200 (inr (JObj result)) →
  data (send_relay_command notify srv
          (send_relay_command notify srv c device_id command value).2
          device_id command value).2
  = data (send_relay_command notify srv c device_id command value).2.
Proof.
  intros Hold Hsrv.
  destruct (send_relay_command_address srv c device_id command value)
    as [Hurl Hhdr].
  destruct (relay_attempt_patch notify _ _ _ _ _ _ _ Hold Hsrv) as (Hdata & _).
  rewrite <- send_relay_command_data in Hdata.
  set (c1 := (send_relay_command notify srv c device_id command value).2) in *.
  assert (data c1 !! device_id = Some (result ∪ old)) as Hold1
    by (by rewrite Hdata, lookup_insert_eq).
  assert (srv (relay_request c1 device_id command value)
          = Response 200 (inr (JObj result))) as Hsrv1.
  { rewrite <- Hsrv. unfold relay_request. by rewrite Hurl, Hhdr. }
  destruct (relay_attempt_patch notify _ _ _ _ _ _ _ Hold1 Hsrv1) as (Hdata1 & _).
  rewrite send_relay_command_data, Hdata1, Hdata, insert_insert_eq.
  by rewrite (assoc_L (∪)), (idemp_L (∪)).
Qed.

End CommandFacts.

(** ** The addresses of the relay endpoints *)

Section Endpoints.

Lemma append_cons ch (s t : string) : String ch s +:+ t = String ch (s +:+ t).
Proof. reflexivity. Qed.

Lemma length_append (s t : string) :
  String.length (s +:+ t) = (String.length s + String.length t)%nat.
Proof.
  induction s as [|ch s IH]; [done|].
  rewrite append_cons. cbn. by rewrite IH.
Qed.

Lemma append_inv_tail (s t u : string) : s +:+ u = t +:+ u → s = t.
Proof.
  revert t. induction s as [|ch s IH]; intros [|ch' t] Heq.
  - done.
  - apply (f_equal String.length) in Heq.
    rewrite !length_append in Heq. cbn in Heq. lia.
  - apply (f_equal String.length) in Heq.
    rewrite !length_append in Heq. cbn in Heq. lia.
  - rewrite !append_cons in Heq. injection Heq as -> Heq. f_equal. by apply IH.
Qed.

Lemma toggle_is_not_state (s t : string) : s +:+ "/toggle" ≠ t +:+ "/state".
Proof.
  revert t. induction s as [|ch s IH]; intros t Heq.
  - pose proof (f_equal String.length Heq) as Hlen.
    rewrite !length_append in Hlen. cbn in Hlen.
    destruct t as [|ch [|ch' t]]; cbn in Hlen; try lia.
    discriminate Heq.
  - destruct t as [|ch' t].
    + apply (f_equal String.length) in Heq.
      rewrite !length_append in Heq. cbn in Heq. lia.
    + rewrite !append_cons in Heq. injection Heq as _ Heq. by apply (IH t).
Qed.

(** X9: the address a command is sent to tells the device and the
    endpoint apart: two commands go to the same address only if they are
    for the same device id and are both toggles or both state-sets. *)
Theorem relay_url_identifies_command {L} (c : coordinator L)
    device_id device_id' command command' value value' :
  req_url (relay_request c device_id command value)
  = req_url (relay_request c device_id' command' value') →
  device_id = device_id' ∧ (command = "toggle" ↔ command' = "toggle").
Proof.
  unfold relay_request, API_RELAY_TOGGLE, API_RELAY_STATE.
  do 2 case_bool_decide; cbn; intros Heq.
  all: apply (inj (String.app _)) in Heq; apply (inj (String.app _)) in Heq.
  - apply append_inv_tail in Heq. done.
  - by apply toggle_is_not_state in Heq.
  - symmetry in Heq. by apply toggle_is_not_state in Heq.
  - apply append_inv_tail in Heq. done.
Qed.

End Endpoints.

(** ** The device-count sensor *)

Section Grouping.

Import MultitekDeviceCountSensor.

Lemma count_devices_spec devices acc m k :
  count_devices devices acc = inr m →
  default 0 (m !! k)
  = default 0 (acc !! k)
    + Z.of_nat (length (filter (λ dev, counted_under k dev = true) devices))
  ∧ (is_Some (m !! k)
     ↔ is_Some (acc !! k)
       ∨ (0 < length (filter (λ dev, counted_under k dev = true) devices))%nat).
Proof.
  revert acc. induction devices as [|dev devices IH]; intros acc Hm; cbn in Hm.
  - inversion Hm; subst. cbn. split; [lia|]. split; [by left|].
    intros [?|?]; [done|lia].
  - unfold count_device in Hm. fold (type_key dev) in Hm.
    destruct (type_key dev) as [e|k'] eqn:Hkey; [done|].
    destruct (IH _ Hm) as [IH1 IH2].
    destruct (decide (k' = k)) as [->|Hne].
    + assert (counted_under k dev = true) as Hc
        by (unfold counted_under; rewrite Hkey; by apply bool_decide_eq_true_2).
      rewrite filter_cons_True by done.
      rewrite lookup_insert_eq in IH1, IH2.
      cbn in *. split; [lia|]. rewrite IH2. split; [intros _; right; lia|].
      intros _. left. done.
    + assert (counted_under k dev ≠ true) as Hc.
      { unfold counted_under. rewrite Hkey.
        by rewrite bool_decide_eq_false_2. }
      rewrite filter_cons_False by done.
      rewrite lookup_insert_ne in IH1, IH2 by done. done.
Qed.

(** X10: when the grouping of the device-count sensor is computed, it
    holds for each type name the number of snapshot entries with that
    name (entries without a name under ["unknown"]), and it has no entry
    for a name that no device bears. *)
Theorem grouping_counts_each_type {L} (c : coordinator L) device_types k :
  extra_state_attributes c = inr device_types →
  default 0 (device_types !! k)
  = Z.of_nat (length (filter (λ dev, counted_under k dev = true)
                             (map_to_list (data c)).*2))
  ∧ (device_types !! k = None
     ↔ ∀ device_id dev, data c !! device_id = Some dev →
                        counted_under k dev = false).
Proof.
  intros Hm. destruct (count_devices_spec _ _ _ k Hm) as [Hcount Hsome].
  rewrite lookup_empty in Hcount, Hsome. cbn in Hcount. split; [lia|].
  rewrite eq_None_not_Some, Hsome. split.
  - intros Hnone device_id dev Hdev.
    destruct (counted_under k dev) eqn:Hk; [|done].
    destruct Hnone. right.
    assert (dev ∈ filter (λ dev, counted_under k dev = true)
                         (map_to_list (data c)).*2) as Hin.
    { apply list_elem_of_filter. split; [done|].
      apply list_elem_of_fmap. exists (device_id, dev).
      split; [done|]. by apply elem_of_map_to_list. }
    destruct (filter _ _); [by apply elem_of_nil in Hin|cbn; lia].
  - intros Hall [[x Hx]|Hpos]; [done|].
    destruct (filter _ _) as [|dev l] eqn:Hf; [cbn in Hpos; lia|].
    assert (dev ∈ filter (λ dev, counted_under k dev = true)
                         (map_to_list (data c)).*2) as Hin
      by (rewrite Hf; left).
    apply list_elem_of_filter in Hin as [Hk Hin].
    apply list_elem_of_fmap in Hin as ([device_id dev'] & -> & Hin).
    apply elem_of_map_to_list in Hin. cbn in Hk.
    rewrite (Hall _ _ Hin) in Hk. done.
Qed.

Lemma count_devices_error devices acc :
  (∃ e, count_devices devices acc = inl e)
  ↔ ∃ dev, dev ∈ devices ∧ type_key dev = inl TypeError.
Proof.
  revert acc. induction devices as [|dev devices IH]; intros acc; cbn.
  - split; [by intros [e ?]|]. intros (dev & Hdev & _).
    by apply elem_of_nil in Hdev.
  - unfold count_device. fold (type_key dev).
    destruct (type_key dev) as [e|k] eqn:Hkey.
    + split; [|by eauto]. intros _. exists dev. split; [left|].
      unfold type_key, py_hash in *. by destruct (dict_get _ _ _).
    + rewrite IH. split.
      * intros (dev' & Hdev' & Herr). exists dev'. split; [by right|done].
      * intros (dev' & Hdev' & Herr). exists dev'. split; [|done].
        apply elem_of_cons in Hdev' as [->|?]; [congruence|done].
Qed.

(** X11: reading the grouping raises (a [TypeError]) exactly when some
    device of the snapshot has a [type_name] that is a list or an object;
    one such device is enough to leave the sensor without attributes. *)
Theorem grouping_fails_on_unhashable_name {L} (c : coordinator L) :
  (∃ e, extra_state_attributes c = inl e)
  ↔ ∃ device_id dev,
      data c !! device_id = Some dev
      ∧ ((∃ l, dev !! "type_name" = Some (JList l))
         ∨ (∃ m, dev !! "type_name" = Some (JObj m))).
Proof.
  unfold extra_state_attributes. rewrite count_devices_error. split.
  - intros (dev & Hdev & Herr).
    apply list_elem_of_fmap in Hdev as ([device_id dev'] & -> & Hin).
    apply elem_of_map_to_list in Hin. exists device_id, dev'.
    split; [done|]. unfold type_key, dict_get in Herr. cbn in Herr.
    destruct (dev' !! "type_name") as [[]|]; cbn in Herr; try done; eauto.
  - intros (device_id & dev & Hdev & Hname). exists dev. split.
    + apply list_elem_of_fmap. exists (device_id, dev).
      split; [done|]. by apply elem_of_map_to_list.
    + unfold type_key, dict_get.
      by destruct Hname as [[l ->]|[m ->]].
Qed.

End Grouping.

(** ** The switch entities *)

Section SwitchFacts.

Context {RT : Runtime}.

Import MultitekRelaySwitch SwitchPlatform.

Implicit Types (self : switch) (dev old result : gmap string json).
Implicit Types (d : gmap string (gmap string json)).
Implicit Types (c : coordinator switch) (srv : request -> http_result).

(** X12: [_update_from_data] raises, with a [TypeError], exactly when the
    [type] of the device is a list or an object; the name of the entity
    has been replaced by then, its icon, attributes and state have not. *)
Theorem update_from_data_unhashable_type self dev :
  ((_update_from_data self dev).1 = Some TypeError
   ↔ (∃ l, dev !! "type" = Some (JList l))
     ∨ (∃ m, dev !! "type" = Some (JObj m)))
  ∧ ((_update_from_data self dev).1 ≠ Some TypeError →
     (_update_from_data self dev).1 = None)
  ∧ ((_update_from_data self dev).1 = Some TypeError →
     _attr_name (_update_from_data self dev).2
     = dict_get dev "name" (JStr ("Relay " +:+ _device_id self))
     ∧ _attr_icon (_update_from_data self dev).2 = _attr_icon self
     ∧ _attr_extra_state_attributes (_update_from_data self dev).2
       = _attr_extra_state_attributes self
     ∧ _attr_is_on (_update_from_data self dev).2 = _attr_is_on self).
Proof.
  unfold _update_from_data, dict_get.
  destruct (dev !! "type") as [[| | | | |]|]; cbn; split_and!;
    try done; try (split; [done|]; by intros [[? [=]]|[? [=]]]).
  - split; eauto.
  - split; eauto.
Qed.

Lemma update_from_data_identity self dev :
  _device_id (_update_from_data self dev).2 = _device_id self
  ∧ written (_update_from_data self dev).2 = written self.
Proof.
  unfold _update_from_data.
  destruct (table_get DEVICE_TYPE_ICONS _ _); [done|].
  by destruct (table_get DEVICE_TYPE_NAMES _ _).
Qed.

Lemma handler_identity d self :
  _device_id (_handle_coordinator_update d self).2 = _device_id self.
Proof.
  unfold _handle_coordinator_update.
  destruct (d !! _device_id self) as [dev|]; [|done].
  destruct (py_truthy _); [|done].
  pose proof (update_from_data_identity self dev) as [Hid _].
  by destruct (_update_from_data self dev) as [[e|] self'].
Qed.

(** X13: when its device is in the snapshot, with a non-empty entry whose
    type is not a list or an object, the listener of a switch does not
    raise and leaves the entity showing the snapshot: [is_on] is the
    [state] field of the entry ([False] without one), the name is its
    [name] field (["Relay <id>"] without one), and that state is
    written. *)
Theorem listener_shows_snapshot d self dev :
  d !! _device_id self = Some dev →
  dev ≠ ∅ →
  (∀ l, dev !! "type" ≠ Some (JList l)) →
  (∀ m, dev !! "type" ≠ Some (JObj m)) →
  (_handle_coordinator_update d self).1 = None
  ∧ _attr_is_on (_handle_coordinator_update d self).2
    = dict_get dev "state" (JBool false)
  ∧ written (_handle_coordinator_update d self).2
    = Some (dict_get dev "state" (JBool false))
  ∧ _attr_name (_handle_coordinator_update d self).2
    = dict_get dev "name" (JStr ("Relay " +:+ _device_id self)).
Proof.
  intros Hdev Hne Hlist Hobj. unfold _handle_coordinator_update.
  rewrite Hdev. cbn. rewrite bool_decide_eq_false_2 by done. cbn.
  unfold _update_from_data, dict_get.
  destruct (dev !! "type") as [[| | | | l|m]|]; cbn; try done.
  - by destruct (Hlist l).
  - by destruct (Hobj m).
Qed.

Lemma async_update_listeners_lookup {L}
    (notify : gmap string (gmap string json) → L → option exn * L) d ls i l :
  ls !! i = Some l →
  (async_update_listeners notify d ls).2 !! i = Some l
  ∨ (async_update_listeners notify d ls).2 !! i = Some (notify d l).2.
Proof.
  revert i. induction ls as [|l0 ls IH]; intros i Hi; [done|]. cbn.
  destruct (notify d l0) as [[e|] l0'] eqn:Hl0; cbn.
  - destruct i as [|i]; cbn in *; [|by left].
    inversion Hi; subst. right. by rewrite Hl0.
  - destruct (async_update_listeners notify d ls) as [r ls'] eqn:Hls.
    cbn in *. destruct i as [|i]; cbn in *.
    + inversion Hi; subst. right. by rewrite Hl0.
    + by apply IH.
Qed.

(** X14: a switch whose device is no longer in the snapshot, or is there
    with an empty entry, comes out of a round of notifications exactly as
    it went in: it keeps its last state and nothing is written for it. *)
Theorem vanished_device_keeps_entity d (ls : list switch) i self :
  ls !! i = Some self →
  d !! _device_id self = None ∨ d !! _device_id self = Some ∅ →
  (async_update_listeners _handle_coordinator_update d ls).2 !! i = Some self.
Proof.
  intros Hi Hgone.
  assert (_handle_coordinator_update d self = (None, self)) as Hsame.
  { unfold _handle_coordinator_update. by destruct Hgone as [->| ->]. }
  destruct (async_update_listeners_lookup _handle_coordinator_update d ls i
              self Hi) as [?|Hl]; [done|].
  by rewrite Hl, Hsame.
Qed.

Lemma async_update_listeners_ids d (ls : list switch) :
  _device_id <$> (async_update_listeners _handle_coordinator_update d ls).2
  = _device_id <$> ls.
Proof.
  induction ls as [|l ls IH]; [done|]. cbn.
  pose proof (handler_identity d l) as Hid.
  destruct (_handle_coordinator_update d l) as [[e|] l']; cbn in *.
  - by rewrite Hid.
  - destruct (async_update_listeners _ d ls) as [r ls']. cbn in *.
    by rewrite Hid, IH.
Qed.

Lemma relay_attempt_ids srv c device_id command value :
  _device_id <$>
    listeners (relay_attempt _handle_coordinator_update srv c device_id
                             command value).2
  = _device_id <$> listeners c.
Proof.
  unfold relay_attempt.
  destruct (srv _) as [e|status [e|answer]]; cbn; [done| |].
  - by case_bool_decide.
  - case_bool_decide; [by destruct answer|].
    destruct (data c !! device_id) as [entry|]; [|done].
    destruct (dict_update entry answer) as [[e|] entry']; cbn; [done|].
    unfold async_set_updated_data; cbn.
    pose proof (async_update_listeners_ids
                  (<[device_id:=entry']> (data c)) (listeners c)) as Hids.
    by destruct (async_update_listeners _ _ _) as [[e|] ls].
Qed.

Lemma send_relay_command_ids srv c device_id command value :
  _device_id <$>
    listeners (send_relay_command _handle_coordinator_update srv c device_id
                                  command value).2
  = _device_id <$> listeners c.
Proof.
  pose proof (relay_attempt_ids srv c device_id command value) as Hids.
  unfold send_relay_command.
  by destruct (relay_attempt _ _ _ _ _ _) as [[[]|] ?].
Qed.

Lemma command_then_ids srv c i command value assign :
  _device_id <$> listeners (command_then srv c i command value assign).2
  = _device_id <$> listeners c.
Proof.
  unfold command_then. destruct (listeners c !! i) as [self|]; [|done].
  pose proof (send_relay_command_ids srv c (_device_id self) command value)
    as Hids.
  destruct (send_relay_command _ _ _ _ _ _) as [[e|res] c']; [done|].
  cbn in *. rewrite <- Hids.
  rewrite (list_fmap_alter _ _ id).
  - by rewrite list_alter_id.
  - by apply Forall_true.
Qed.

(** X15: the three commands of a switch leave the registered entities in
    place: after [async_turn_on], [async_turn_off] or [async_toggle],
    successful or not, the coordinator has the same entities for the same
    devices in the same order. *)
Theorem commands_keep_entities srv c i :
  _device_id <$> listeners (async_turn_on srv c i).2 = _device_id <$> listeners c
  ∧ _device_id <$> listeners (async_turn_off srv c i).2
    = _device_id <$> listeners c
  ∧ _device_id <$> listeners (async_toggle srv c i).2
    = _device_id <$> listeners c.
Proof.
  unfold async_turn_on, async_turn_off, async_toggle.
  by rewrite !command_then_ids.
Qed.



Lemma command_then_failed srv c i self command value assign :
  listeners c !! i = Some self →
  command_failed srv c (_device_id self) command value →
  is_Some (command_then srv c i command value assign).1
  ∧ listeners (command_then srv c i command value assign).2 = listeners c
  ∧ data (command_then srv c i command value assign).2 = data c.
Proof.
  intros Hself Hfail. unfold command_then. rewrite Hself.
  destruct (relay_attempt_failed _handle_coordinator_update _ _ _ _ _ Hfail)
    as [e He].
  unfold send_relay_command. rewrite He. by destruct e; cbn.
Qed.

(** X17: when the tablet fails a command (the call raises or the status
    is not 200), the method of the switch raises and no entity is touched:
    the optimistic assignment after the command is not reached, and the
    snapshot is as before. *)
Theorem failed_command_leaves_entities srv c i self :
  listeners c !! i = Some self →
  (∀ req, (∃ e, srv req = Raised e)
          ∨ (∃ status body, srv req = Response status body ∧ status ≠ 200)) →
  (is_Some (async_turn_on srv c i).1
   ∧ listeners (async_turn_on srv c i).2 = listeners c
   ∧ data (async_turn_on srv c i).2 = data c)
  ∧ (is_Some (async_turn_off srv c i).1
     ∧ listeners (async_turn_off srv c i).2 = listeners c
     ∧ data (async_turn_off srv c i).2 = data c)
  ∧ (is_Some (async_toggle srv c i).1
     ∧ listeners (async_toggle srv c i).2 = listeners c
     ∧ data (async_toggle srv c i).2 = data c).
Proof.
  intros Hself Hfail. unfold async_turn_on, async_turn_off, async_toggle.
  split_and!; apply (command_then_failed _ _ _ self); try done; apply Hfail.
Qed.

End SwitchFacts.

(** ** Setting up the switch platform *)

Section PlatformFacts.

Import MultitekRelaySwitch SwitchPlatform.

Implicit Types (d : gmap string (gmap string json)).
Implicit Types (items : list (string * gmap string json)).

Lemma init_of_switchable device_id dev :
  switchable dev = true →
  __init__ device_id dev
  = (None,
     MkSwitch device_id
       (dict_get dev "name" (JStr ("Relay " +:+ device_id)))
       (__init__ device_id dev).2.(_attr_icon)
       (__init__ device_id dev).2.(_attr_extra_state_attributes)
       (dict_get dev "state" (JBool false)) None).
Proof.
  unfold switchable, __init__, _update_from_data, dict_get.
  destruct (dev !! "type") as [[| | | | |]|]; cbn; done.
Qed.

Lemma setup_ids_sublist items :
  _device_id <$>
    omap (λ '(device_id, device_data),
            if in_switch_types
                 (dict_get device_data "type" (JInt RELAY_TYPE_ON_OFF))
            then Some (__init__ device_id device_data).2
            else None) items
  `sublist_of` items.*1.
Proof.
  induction items as [|[device_id dev] items IH]; [done|]. cbn.
  destruct (in_switch_types _) eqn:Hsw; cbn.
  - rewrite (init_of_switchable device_id dev Hsw). cbn. by constructor.
  - by constructor.
Qed.

Lemma switchable_types dev :
  switchable dev = true
  ↔ dev !! "type" = None
    ∨ dev !! "type" = Some (JBool true)
    ∨ ∃ n, dev !! "type" = Some (JInt n) ∧ n ∈ [1; 3; 4; 5; 6].
Proof.
  unfold switchable, in_switch_types, dict_get.
  destruct (dev !! "type") as [[| [] |n| | |]|]; cbn.
  all: try (split; [done|]; intros [?|[?|[n' [? ?]]]]; done).
  - split; [by eauto|done].
  - rewrite bool_decide_eq_true. split.
    + intros Hn. right. right. by exists n.
    + intros [?|[?|[n' [[= <-] Hn]]]]; done.
  - split; [by eauto|done].
Qed.

(** X18: [async_setup_entry] makes one switch for each device of the
    snapshot whose [type] is 1, 3, 4, 5 or 6, is [true], or is missing
    (then it counts as 3), and none for any other device: a shutter (type
    2) gets no switch, nor does a device with an unknown number or a type
    that is no number.  A switch starts with the state of its snapshot
    entry, and no state has been written for it yet. *)
Theorem setup_makes_switchable_entities d :
  (∀ device_id,
     device_id ∈ _device_id <$> async_setup_entry d
     ↔ ∃ dev, d !! device_id = Some dev
              ∧ (dev !! "type" = None
                 ∨ dev !! "type" = Some (JBool true)
                 ∨ ∃ n, dev !! "type" = Some (JInt n) ∧ n ∈ [1; 3; 4; 5; 6]))
  ∧ (∀ device_id dev v,
       d !! device_id = Some dev → dev !! "type" = Some v →
       v = JInt 2 ∨ v = JNull ∨ v = JBool false ∨ (∃ s, v = JStr s)
       ∨ (∃ n, v = JInt n ∧ (n < 1 ∨ 6 < n)) →
       device_id ∉ _device_id <$> async_setup_entry d)
  ∧ NoDup (_device_id <$> async_setup_entry d)
  ∧ (∀ self, self ∈ async_setup_entry d →
       ∃ dev, d !! _device_id self = Some dev
              ∧ _attr_is_on self = dict_get dev "state" (JBool false)
              ∧ written self = None).
Proof.
  assert (Hmem : ∀ self, self ∈ async_setup_entry d ↔
            ∃ device_id dev, d !! device_id = Some dev
                             ∧ switchable dev = true
                             ∧ self = (__init__ device_id dev).2).
  { intros self. unfold async_setup_entry. rewrite list_elem_of_omap. split.
    - intros ([device_id dev] & Hin & Hf).
      apply elem_of_map_to_list in Hin.
      destruct (in_switch_types _) eqn:Hsw; [|done].
      inversion Hf; subst. by exists device_id, dev.
    - intros (device_id & dev & Hdev & Hsw & ->). exists (device_id, dev).
      split; [by apply elem_of_map_to_list|].
      unfold switchable in Hsw. by rewrite Hsw. }
  assert (Hids : ∀ device_id,
            device_id ∈ _device_id <$> async_setup_entry d
            ↔ ∃ dev, d !! device_id = Some dev ∧ switchable dev = true).
  { intros device_id. rewrite list_elem_of_fmap. split.
    + intros (self & -> & Hself).
      apply Hmem in Hself as (device_id & dev & Hdev & Hsw & ->).
      rewrite (init_of_switchable device_id dev Hsw). cbn. eauto.
    + intros (dev & Hdev & Hsw). exists (__init__ device_id dev).2. split.
      * by rewrite (init_of_switchable device_id dev Hsw).
      * apply Hmem. eauto. }
  split_and!.
  - intros device_id. rewrite Hids. split.
    + intros (dev & Hdev & Hsw). exists dev. split; [done|].
      by apply switchable_types.
    + intros (dev & Hdev & Hsw). exists dev. split; [done|].
      by apply switchable_types.
  - intros device_id dev v Hdev Htype Hv [dev' [Hdev' Hsw]]%Hids.
    rewrite Hdev in Hdev'. injection Hdev' as <-.
    apply switchable_types in Hsw. rewrite Htype in Hsw.
    destruct Hsw as [?|[[= ->]|(n & [= ->] & Hn)]]; [done| |].
    + destruct Hv as [?|[?|[?|[[s ?]|(n & ? & ?)]]]]; done.
    + destruct Hv as [[= ->]|[?|[?|[[s ?]|(n' & [= <-] & Hrange)]]]];
        try done.
      * repeat (apply elem_of_cons in Hn as [?|Hn]; [done|]).
        by apply elem_of_nil in Hn.
      * repeat (apply elem_of_cons in Hn as [->|Hn]; [lia|]).
        by apply elem_of_nil in Hn.
  - eapply sublist_NoDup; [|apply setup_ids_sublist].
    apply NoDup_fst_map_to_list.
  - intros self Hself.
    apply Hmem in Hself as (device_id & dev & Hdev & Hsw & ->).
    rewrite (init_of_switchable device_id dev Hsw). cbn. eauto.
Qed.

Lemma handle_device_fresh items new_entities current_devices :
  NoDup items.*1 →
  (∀ device_id, device_id ∈ items.*1 → current_devices !! device_id = None) →
  (fold_left handle_device items (new_entities, current_devices)).1
  = (new_entities ++
     omap (λ '(device_id, device_data),
             if in_switch_types
                  (dict_get device_data "type" (JInt RELAY_TYPE_ON_OFF))
             then Some (__init__ device_id device_data).2
             else None) items)%list.
Proof.
  revert new_entities current_devices.
  induction items as [|[device_id dev] items IH];
    intros new_entities current_devices Hnodup Hfresh; cbn.
  - by rewrite app_nil_r.
  - apply NoDup_cons in Hnodup as [Hnotin Hnodup].
    rewrite (Hfresh device_id) by (cbn; left).
    destruct (in_switch_types _).
    + rewrite IH; [by rewrite <- app_assoc|done|].
      intros k Hk. rewrite lookup_insert_ne.
      * apply Hfresh. cbn. by right.
      * intros ->. done.
    + apply IH; [done|]. intros k Hk. apply Hfresh. cbn. by right.
Qed.

Lemma handle_device_keeps items new_entities current_devices device_id :
  is_Some (current_devices !! device_id) →
  is_Some ((fold_left handle_device items (new_entities, current_devices)).2
             !! device_id).
Proof.
  revert new_entities current_devices.
  induction items as [|[k dev] items IH];
    intros new_entities current_devices Hin; cbn; [done|].
  destruct (current_devices !! k); [by apply IH|].
  destruct (in_switch_types _); [|by apply IH].
  apply IH. rewrite lookup_insert. case_decide; [by eexists|done].
Qed.

Lemma handle_device_records items new_entities current_devices device_id dev :
  (device_id, dev) ∈ items →
  switchable dev = true →
  is_Some ((fold_left handle_device items (new_entities, current_devices)).2
             !! device_id).
Proof.
  revert new_entities current_devices.
  induction items as [|[k dev'] items IH];
    intros new_entities current_devices Hin Hsw.
  - by apply elem_of_nil in Hin.
  - apply elem_of_cons in Hin as [[= <- <-]|Hin].
    2:{ change (fold_left handle_device ((k, dev') :: items)
                  (new_entities, current_devices))
          with (fold_left handle_device items
                  (handle_device (new_entities, current_devices) (k, dev'))).
        destruct (handle_device _ _) as [es cur]. by apply IH. }
    cbn. destruct (current_devices !! device_id) eqn:Hcur.
    + apply handle_device_keeps. by rewrite Hcur.
    + unfold switchable in Hsw. rewrite Hsw.
      apply handle_device_keeps. by rewrite lookup_insert_eq.
Qed.

Lemma handle_device_known items new_entities current_devices :
  (∀ device_id dev, (device_id, dev) ∈ items → switchable dev = true →
                    is_Some (current_devices !! device_id)) →
  fold_left handle_device items (new_entities, current_devices)
  = (new_entities, current_devices).
Proof.
  induction items as [|[k dev] items IH]; intros Hknown; [done|]. cbn.
  destruct (current_devices !! k) eqn:Hcur.
  - apply IH. intros device_id dev' Hin. apply Hknown. by right.
  - destruct (in_switch_types _) eqn:Hsw.
    + destruct (Hknown k dev) as [b Hb]; [left|done|congruence].
    + apply IH. intros device_id dev' Hin. apply Hknown. by right.
Qed.

(** X19: the listener for new devices starts from an empty record, and
    [async_setup_entry] does not record the entities it makes; so the
    first time the listener runs it hands over an entity for every
    switchable device of the snapshot, those that were set up included.
    Run again on the same snapshot it hands over none. *)
Theorem new_device_listener_repeats_setup d :
  (handle_coordinator_update ∅ d).1 = async_setup_entry d
  ∧ handle_coordinator_update (handle_coordinator_update ∅ d).2 d
    = ([], (handle_coordinator_update ∅ d).2).
Proof.
  unfold handle_coordinator_update. split.
  - rewrite handle_device_fresh; [done|apply NoDup_fst_map_to_list|].
    intros device_id _. apply lookup_empty.
  - apply handle_device_known. intros device_id dev Hin Hsw.
    by apply (handle_device_records _ _ _ _ dev).
Qed.

End PlatformFacts.

(** ** Setting up the integration *)

Section IntegrationFacts.

Context {RT : Runtime}.

Import Integration.

Implicit Types (entry : entry_data) (srv : request -> http_result).

Lemma setup_test_passes srv entry :
  setup_connection_test srv entry = inr ()
  ↔ ∃ data, srv (setup_request entry) = Response 200 (inr (JObj data))
            ∧ py_truthy (dict_get data "online" JNull) = true.
Proof.
  unfold setup_connection_test, setup_attempt.
  destruct (srv (setup_request entry)) as [e|status [e|answer]].
  - split; [by destruct e|]. by intros (? & ? & ?).
  - case_bool_decide; (split; [by destruct e|]).
    + by intros (? & [= ? ?] & ?).
    + by intros (? & ? & ?).
  - case_bool_decide as Hstatus.
    + split; [done|]. by intros (? & [= ? ?] & ?).
    + subst status.
      destruct answer as [| | | | |data];
        try (split; [done|]; by intros (? & [= ?] & ?)).
      destruct (py_truthy (dict_get data "online" JNull)) eqn:Honline; cbn.
      * split; [eauto|done].
      * split; [done|]. intros (data' & [= <-] & Hdata'). congruence.
Qed.

(** X20: the connection test of [async_setup_entry] lets setup go on
    exactly when the tablet answers [/api/status] with status 200 and an
    object whose [online] field is truthy; a missing [online], [null],
    [false], [0] or an empty string all stop it. *)
Theorem setup_test_passes_iff_online srv entry :
  (setup_connection_test srv entry = inr ()
   ↔ ∃ data, srv (setup_request entry) = Response 200 (inr (JObj data))
             ∧ py_truthy (dict_get data "online" JNull) = true)
  ∧ ∀ data v,
      srv (setup_request entry) = Response 200 (inr (JObj data)) →
      data !! "online" = None ∨ data !! "online" = Some v →
      v ∈ [JNull; JBool false; JInt 0; JStr ""] →
      setup_connection_test srv entry
      = inl (ConfigEntryNotReady "Tablet server is not online").
Proof.
  split; [apply setup_test_passes|].
  intros data v Hsrv Honline Hv.
  unfold setup_connection_test, setup_attempt. rewrite Hsrv.
  rewrite bool_decide_eq_false_2 by (intros Hne; by apply Hne).
  unfold dict_get. destruct Honline as [-> | ->]; [done|].
  repeat (apply elem_of_cons in Hv as [->|Hv]; [done|]).
  by apply elem_of_nil in Hv.
Qed.

(** X21: a timeout, a connection error, a status other than 200 and a
    tablet that does not report itself online all end the setup with
    [ConfigEntryNotReady]; the connection test never lets a
    [TimeoutError] or a [ClientError] out. *)
Theorem setup_test_reports_not_ready srv entry :
  (srv (setup_request entry) = Raised TimeoutError
   ∨ (∃ msg, srv (setup_request entry) = Raised (ClientError msg))
   ∨ (∃ status body, srv (setup_request entry) = Response status body
                     ∧ status ≠ 200)
   ∨ (∃ data, srv (setup_request entry) = Response 200 (inr (JObj data))
              ∧ py_truthy (dict_get data "online" JNull) = false) →
   ∃ msg, setup_connection_test srv entry = inl (ConfigEntryNotReady msg))
  ∧ ∀ e, setup_connection_test srv entry = inl e →
         e ≠ TimeoutError ∧ ∀ msg, e ≠ ClientError msg.
Proof.
  split.
  - unfold setup_connection_test, setup_attempt.
    intros [-> | [[msg ->] | [(status & body & -> & Hstatus)
                             | (data & -> & Honline)]]]; eauto.
    + rewrite bool_decide_eq_true_2 by done. eauto.
    + rewrite bool_decide_eq_false_2 by (intros Hne; by apply Hne).
      rewrite Honline. cbn. eauto.
  - unfold setup_connection_test.
    destruct (setup_attempt srv entry) as [[]|]; intros e [= <-]; done.
Qed.

(** X22: the connection test of the setup and [test_connection] of the
    coordinator made for the same entry agree: against a tablet that
    answers both requests alike, setup passes the test exactly when
    [test_connection] returns a truthy value. *)
Theorem setup_test_agrees_with_probe {L} srv entry (c : coordinator L) :
  base_url c = entry_base_url entry →
  headers c = entry_headers entry →
  (∀ method url hdrs body t t',
     srv (Request method url hdrs body t)
     = srv (Request method url hdrs body t')) →
  (setup_connection_test srv entry = inr ()
   ↔ py_truthy (test_connection srv c) = true).
Proof.
  intros Hurl Hhdr Htimeout.
  assert (srv (setup_request entry) = srv (status_request c)) as Hsame.
  { unfold setup_request, status_request, API_STATUS.
    rewrite Hurl, Hhdr. apply Htimeout. }
  rewrite setup_test_passes, Hsame.
  unfold test_connection.
  destruct (srv (status_request c)) as [e|status [e|answer]]; cbn.
  - split; [by intros (? & ? & ?)|done].
  - case_bool_decide; (split; [by intros (? & ? & ?)|done]).
  - case_bool_decide as Hstatus.
    + subst status. destruct answer as [| | | | |data];
        try (split; [by intros (? & [= ?] & ?)|done]).
      unfold dict_get. destruct (data !! "online") as [v|] eqn:Hv; cbn.
      * split.
        -- intros (data' & [= <-] & Hdata). by rewrite Hv in Hdata.
        -- intros Htrue. exists data. split; [done|]. by rewrite Hv.
      * split; [|done]. intros (data' & [= <-] & Hdata).
        by rewrite Hv in Hdata.
    + split; [|done]. intros (? & [= ? ?] & ?). done.
Qed.

(** X23: the address and the headers of a coordinator are not touched
    by a command: when they were taken from an entry, every request built
    after the command still carries the key of the entry under
    [X-HA-Access] and nothing else when authentication is on, and no
    header at all when it is off; the connection test of the setup sends
    the same headers. *)
Theorem key_goes_with_every_request {L}
    (notify : gmap string (gmap string json) → L → option exn * L)
    srv entry (c : coordinator L) device_id command value
    device_id' command' value' :
  headers c = entry_headers entry →
  req_headers
    (devices_request (send_relay_command notify srv c device_id command value).2)
  = entry_headers entry
  ∧ req_headers
      (relay_request (send_relay_command notify srv c device_id command value).2
                     device_id' command' value')
    = entry_headers entry
  ∧ req_headers
      (status_request (send_relay_command notify srv c device_id command value).2)
    = entry_headers entry
  ∧ req_headers (setup_request entry) = entry_headers entry
  ∧ entry_headers entry !! "X-HA-Access"
    = (if use_auth entry then Some (api_key entry) else None)
  ∧ ∀ name, name ≠ "X-HA-Access" → entry_headers entry !! name = None.
Proof.
  intros Hhdr.
  destruct (send_relay_command_address notify srv c device_id command value)
    as [_ Hsame].
  unfold relay_request. case_bool_decide; cbn; rewrite Hsame, Hhdr.
  all: split_and!; try done; unfold entry_headers; destruct (use_auth entry);
    try done; try (by rewrite lookup_singleton_eq);
    intros name Hname; by rewrite lookup_singleton_ne.
Qed.

End IntegrationFacts.

(** ** The config flow *)

Section FlowFacts.

Context {RT : Runtime}.
Variable unique_id_guard : string -> option exn.

Import MultitekConfigFlow.

Implicit Types (srv : request -> http_result) (info : gmap string json).

Lemma test_connection_found srv ip port info :
  _test_connection srv ip port = inr info
  ↔ ∃ discovery_info,
      srv (discover_request ip port)
      = Response 200 (inr (JObj discovery_info))
      ∧ info = <["port" := JInt port]> (<["ip" := JStr ip]> discovery_info).
Proof.
  unfold _test_connection, discover_attempt.
  destruct (srv (discover_request ip port)) as [e|status [e|answer]].
  - split; [done|]. by intros (? & ? & ?).
  - case_bool_decide; (split; [done|]).
    + by intros (? & [= ? ?] & ?).
    + by intros (? & ? & ?).
  - case_bool_decide as Hstatus.
    + split; [done|]. by intros (? & [= ? ?] & ?).
    + subst status.
      destruct answer as [| | | | |m];
        try (split; [done|]; by intros (? & [= ?] & ?)).
      split.
      * intros [= <-]. eauto.
      * intros (m' & [= <-] & ->). done.
Qed.

(** X24: [_test_connection] returns exactly when the tablet answers
    [/api/discover] with status 200 and an object; what it returns is that
    object with [ip] and [port] set to what the user typed, whatever the
    tablet reports under these two names, and with every other field as
    the tablet sent it. *)
Theorem discovery_keeps_user_address srv ip port info :
  (_test_connection srv ip port = inr info
   ↔ ∃ discovery_info,
       srv (discover_request ip port)
       = Response 200 (inr (JObj discovery_info))
       ∧ info = <["port" := JInt port]> (<["ip" := JStr ip]> discovery_info))
  ∧ (_test_connection srv ip port = inr info →
     info !! "ip" = Some (JStr ip)
     ∧ info !! "port" = Some (JInt port)
     ∧ ∀ discovery_info field,
         srv (discover_request ip port)
         = Response 200 (inr (JObj discovery_info)) →
         field ≠ "ip" → field ≠ "port" →
         info !! field = discovery_info !! field).
Proof.
  split; [apply test_connection_found|].
  intros (discovery_info & Hsrv & ->)%test_connection_found.
  split_and!.
  - by rewrite lookup_insert_ne, lookup_insert_eq.
  - by rewrite lookup_insert_eq.
  - intros discovery_info' field Hsrv' Hip Hport.
    rewrite Hsrv in Hsrv'. injection Hsrv' as <-.
    by rewrite !lookup_insert_ne.
Qed.

Lemma test_connection_failure srv ip port :
  (¬ ∃ discovery_info,
       srv (discover_request ip port)
       = Response 200 (inr (JObj discovery_info))) →
  _test_connection srv ip port = inl asyncio_NameError.
Proof.
  intros Hfail.
  destruct (_test_connection srv ip port) as [e|info] eqn:Htest.
  - unfold _test_connection in Htest.
    destruct (discover_attempt srv ip port); by inversion Htest.
  - apply test_connection_found in Htest as (discovery_info & Hsrv & _).
    destruct Hfail. eauto.
Qed.

(** X25: whenever the discovery does not come back with status 200 and
    an object (a timeout, a connection error, another status, a body that
    cannot be read), the user step creates nothing and shows its form
    again with the one error [unknown], never [cannot_connect]: the
    [except] clauses of [_test_connection] name [asyncio], which
    [config_flow.py] does not import, so that every failure leaves it as a
    [NameError].  What was discovered before is kept. *)
Theorem user_step_failure_shows_unknown srv info ip port :
  (¬ ∃ discovery_info,
       srv (discover_request ip port)
       = Response 200 (inr (JObj discovery_info))) →
  _test_connection srv ip port
  = inl (OtherException "NameError" ["name 'asyncio' is not defined"])
  ∧ async_step_user unique_id_guard srv info (Some (ip, port))
    = (ShowForm "user" {["base" := "unknown"]} ∅, info).
Proof.
  intros Hfail. pose proof (test_connection_failure _ _ _ Hfail) as Htest.
  split; [done|]. unfold async_step_user. by rewrite Htest.
Qed.

Lemma test_auth_status srv data :
  (_test_auth srv data = inr ()
   ↔ ∃ body, srv (auth_request data) = Response 200 body)
  ∧ (∀ e, _test_auth srv data = inl e → e = asyncio_NameError).
Proof.
  unfold _test_auth, auth_attempt.
  destruct (srv (auth_request data)) as [e|status body].
  - split; [|by intros ? [= <-]]. split; [done|]. by intros [? ?].
  - destruct (decide (status = 401)) as [->|H401].
    + rewrite bool_decide_eq_true_2 by done.
      split; [|by intros ? [= <-]]. split; [done|]. by intros [? [= ?]].
    + rewrite bool_decide_eq_false_2 by done.
      destruct (decide (status = 200)) as [->|H200].
      * rewrite bool_decide_eq_false_2 by (intros Hne; by apply Hne).
        split; [split; eauto|]. by intros ? [=].
      * rewrite bool_decide_eq_true_2 by done.
        split; [|by intros ? [= <-]].
        split; [done|]. by intros [? [= ? ?]].
Qed.

(** X26: [_test_auth] passes exactly when the status of the answer is
    200, whatever the body says (a body that is no JSON, or a tablet that
    reports itself offline, passes too); every failure, a 401 included,
    leaves it as the [NameError] of the unimported [asyncio], so that no
    [InvalidAuth] and no [CannotConnect] ever reaches the caller. *)
Theorem auth_test_checks_status_only srv data :
  (_test_auth srv data = inr ()
   ↔ ∃ body, srv (auth_request data) = Response 200 body)
  ∧ (∀ e, _test_auth srv data = inl e →
          e = OtherException "NameError" ["name 'asyncio' is not defined"])
  ∧ (∀ body, srv (auth_request data) = Response 401 body →
             _test_auth srv data
             = inl (OtherException "NameError"
                                   ["name 'asyncio' is not defined"])).
Proof.
  destruct (test_auth_status srv data) as [Hpass Hfail].
  split_and!; [done|done|].
  intros body Hsrv. unfold _test_auth, auth_attempt. by rewrite Hsrv.
Qed.

(** X27: the user step creates an entry only for the address and port
    typed in, without authentication and with an empty key, and only when
    the discovery succeeded and the unique id was let through; a
    coordinator made for such an entry sends no header. *)
Theorem user_step_entry_has_no_auth srv info user_input title data info' :
  async_step_user unique_id_guard srv info user_input
  = (CreateEntry title data, info') →
  ∃ ip port,
    user_input = Some (ip, port)
    ∧ data = MkEntry (JStr ip) (JInt port) false ""
    ∧ entry_headers data = ∅
    ∧ title = "Multitek Tablet (" +:+ ip +:+ ")"
    ∧ _test_connection srv ip port = inr info'
    ∧ unique_id_guard (ip +:+ ":" +:+ str_int port) = None.
Proof.
  unfold async_step_user. destruct user_input as [[ip port]|]; [|done].
  destruct (_test_connection srv ip port) as [e|found] eqn:Hfound; [done|].
  destruct (dict_get found "api" (JObj ∅)) as [| | | | |api]; try done.
  destruct (py_truthy _).
  - unfold async_step_auth, auth_form. done.
  - destruct (unique_id_guard _) eqn:Hguard; [done|].
    intros [= <- <- <-]. exists ip, port. by split_and!.
Qed.

(** X28: the auth step creates an entry only with authentication on and
    with the key typed in, after the tablet has answered 200 to a request
    that carried this key; the coordinator made for the entry sends the
    same header. *)
Theorem auth_step_entry_carries_key srv info key title data :
  async_step_auth unique_id_guard srv info (Some key) = CreateEntry title data →
  use_auth data = true
  ∧ api_key data = key
  ∧ tablet_ip data = dict_get info "ip" JNull
  ∧ entry_headers data = {["X-HA-Access" := key]}
  ∧ req_headers (auth_request data) = entry_headers data
  ∧ ∃ body, srv (auth_request data) = Response 200 body.
Proof.
  unfold async_step_auth, auth_form.
  destruct (_test_auth srv _) as [e|[]] eqn:Htest; [done|].
  destruct (unique_id_guard _); [done|]. intros [= <- <-].
  split_and!; try done. by apply test_auth_status.
Qed.

(** X29: in the auth step every failure of the check looks the same:
    whenever the tablet does not answer the status request with 200 (a
    timeout, a connection error, any other status, a 401 for a wrong key
    included), the auth form is shown again with the one error [unknown];
    [invalid_auth] is never the result of a rejected key. *)
Theorem auth_step_failure_shows_unknown srv info key :
  (¬ ∃ body,
       srv (auth_request
              (MkEntry (dict_get info "ip" JNull)
                       (dict_get info "port" (JInt DEFAULT_PORT)) true key))
       = Response 200 body) →
  async_step_auth unique_id_guard srv info (Some key)
  = ShowForm "auth" {["base" := "unknown"]}
             {["tablet_ip" := dict_get info "ip" (JStr "unknown")]}.
Proof.
  intros Hfail. unfold async_step_auth.
  destruct (_test_auth srv _) as [e|[]] eqn:Htest.
  - by rewrite (proj2 (test_auth_status srv _) e Htest).
  - destruct Hfail. by apply (proj1 (test_auth_status srv _)).
Qed.

(** X30: when the discovery says that authentication is required, the
    user step creates no entry and does not consult the unique id: it
    shows the auth form, without errors and with the address typed in as
    placeholder, and keeps what it discovered. *)
Theorem user_step_asks_for_key srv info ip port discovery_info api :
  srv (discover_request ip port) = Response 200 (inr (JObj discovery_info)) →
  discovery_info !! "api" = Some (JObj api) →
  py_truthy (dict_get api "auth_required" (JBool false)) = true →
  async_step_user unique_id_guard srv info (Some (ip, port))
  = (ShowForm "auth" ∅ {[CONF_TABLET_IP := JStr ip]},
     <["port" := JInt port]> (<["ip" := JStr ip]> discovery_info)).
Proof.
  intros Hsrv Hapi Hreq.
  assert (_test_connection srv ip port
          = inr (<["port" := JInt port]> (<["ip" := JStr ip]> discovery_info)))
    as Hfound by (apply test_connection_found; eauto).
  unfold async_step_user. rewrite Hfound. unfold dict_get at 1.
  rewrite !lookup_insert_ne, Hapi by done. cbn. rewrite Hreq.
  unfold async_step_auth, auth_form, dict_get.
  by rewrite lookup_insert_ne, lookup_insert_eq.
Qed.

End FlowFacts.

(** ** The further properties on the house *)

Import House SwitchPlatform Integration MultitekConfigFlow.

Lemma update_data_wraps_transport_errors_witness :
  _async_update_data (RT:=runtime) silent home
  = inl (UpdateFailed ("Timeout fetching data from " +:+ address))
  ∧ UpdateFailed ("Timeout fetching data from " +:+ address) ≠ TimeoutError.
Proof.
  split; [reflexivity|].
  exact (proj1 (update_data_wraps_transport_errors (RT:=runtime) silent home
                  _ eq_refl)).
Defined.

Lemma missing_devices_is_empty_snapshot_witness :
  bare (devices_request home) = Response 200 (inr (JObj {["version" := JStr "1.0"]}))
  ∧ ({["version" := JStr "1.0"]} : gmap string json) !! "devices" = None
  ∧ _async_update_data (RT:=runtime) bare home = inr ∅.
Proof.
  split; [reflexivity|]. split; [reflexivity|].
  exact (missing_devices_is_empty_snapshot (RT:=runtime) bare home _
           eq_refl eq_refl).
Defined.

Lemma malformed_device_fails_fetch_witness :
  garbled (devices_request home)
  = Response 200 (inr (JObj {["devices" := JList [JObj lamp; JStr "oops"]]}))
  ∧ _async_update_data (RT:=runtime) garbled home = inl AttributeError.
Proof.
  split; [reflexivity|].
  refine (malformed_device_fails_fetch (RT:=runtime) garbled home _
            [JObj lamp; JStr "oops"] eq_refl eq_refl _).
  exists (JStr "oops"). split; [right; left|done].
Defined.

Lemma unknown_command_sets_state_witness :
  "dim" ≠ "toggle"
  ∧ send_relay_command (RT:=runtime) _handle_coordinator_update stuck_off home
      "1" "dim" (JInt 40)
    = send_relay_command (RT:=runtime) _handle_coordinator_update stuck_off
        home "1" "set_state" (JInt 40).
Proof.
  assert ("dim" ≠ "toggle") as Hne by done.
  split; [exact Hne|].
  exact (proj1 (unknown_command_sets_state (RT:=runtime)
                  _handle_coordinator_update stuck_off home "1" "dim"
                  (JInt 40) Hne)).
Defined.

Lemma repeated_command_same_snapshot_witness :
  data home !! "1" = Some lamp
  ∧ data (send_relay_command (RT:=runtime) _handle_coordinator_update toggled
            (send_relay_command (RT:=runtime) _handle_coordinator_update
               toggled home "1" "toggle" JNull).2 "1" "toggle" JNull).2
    = data (send_relay_command (RT:=runtime) _handle_coordinator_update
              toggled home "1" "toggle" JNull).2.
Proof.
  assert (data home !! "1" = Some lamp) as Hold by reflexivity.
  split; [exact Hold|].
  exact (repeated_command_same_snapshot (RT:=runtime)
           _handle_coordinator_update toggled home "1" "toggle" JNull lamp _
           Hold eq_refl).
Defined.

Lemma relay_url_identifies_command_witness :
  req_url (relay_request home "3" "toggle" JNull)
  = req_url (relay_request home "3" "toggle" (JBool true))
  ∧ "3" = "3".
Proof.
  split; [reflexivity|].
  exact (proj1 (relay_url_identifies_command home "3" "3" "toggle" "toggle"
                  JNull (JBool true) eq_refl)).
Defined.

Lemma grouping_counts_each_type_witness :
  MultitekDeviceCountSensor.extra_state_attributes home
  = inr (list_to_map
           [(KStr "Light", 2); (KStr "Shutter", 1); (KStr "unknown", 1)])
  ∧ Z.of_nat (length (filter (λ dev, counted_under (KStr "Light") dev = true)
                             (map_to_list (data home)).*2)) = 2.
Proof.
  assert (MultitekDeviceCountSensor.extra_state_attributes home
          = inr (list_to_map
                   [(KStr "Light", 2); (KStr "Shutter", 1);
                    (KStr "unknown", 1)])) as Hgroup
    by (vm_compute; reflexivity).
  split; [exact Hgroup|].
  rewrite <- (proj1 (grouping_counts_each_type home _ (KStr "Light") Hgroup)).
  reflexivity.
Defined.

Lemma listener_shows_snapshot_witness :
  devices !! _device_id lamp_switch = Some lamp
  ∧ lamp ≠ ∅
  ∧ (_handle_coordinator_update devices lamp_switch).1 = None
  ∧ written (_handle_coordinator_update devices lamp_switch).2
    = Some (JBool false).
Proof.
  assert (devices !! _device_id lamp_switch = Some lamp) as Hdev by reflexivity.
  assert (lamp ≠ ∅) as Hne.
  { intros Hempty. apply (f_equal (lookup "id")) in Hempty.
    vm_compute in Hempty. discriminate Hempty. }
  assert (∀ l, lamp !! "type" ≠ Some (JList l)) as Hlist
    by (intros l Hl; vm_compute in Hl; discriminate Hl).
  assert (∀ m, lamp !! "type" ≠ Some (JObj m)) as Hobj
    by (intros m Hm; vm_compute in Hm; discriminate Hm).
  destruct (listener_shows_snapshot devices lamp_switch lamp Hdev Hne
              Hlist Hobj) as (Hquiet & _ & Hwritten & _).
  split; [exact Hdev|]. split; [exact Hne|]. split; [exact Hquiet|].
  exact Hwritten.
Defined.

Lemma vanished_device_keeps_entity_witness :
  [lamp_switch] !! 0%nat = Some lamp_switch
  ∧ (∅ : gmap string (gmap string json)) !! _device_id lamp_switch = None
  ∧ (async_update_listeners _handle_coordinator_update ∅ [lamp_switch]).2
      !! 0%nat = Some lamp_switch.
Proof.
  split; [reflexivity|]. split; [reflexivity|].
  exact (vanished_device_keeps_entity ∅ [lamp_switch] 0 lamp_switch eq_refl
           (or_introl eq_refl)).
Defined.


Lemma failed_command_leaves_entities_witness :
  listeners home !! 1%nat = Some lamp_switch
  ∧ is_Some (async_toggle (RT:=runtime) broken home 1).1
  ∧ listeners (async_toggle (RT:=runtime) broken home 1).2 = listeners home.
Proof.
  assert (listeners home !! 1%nat = Some lamp_switch) as Hself by reflexivity.
  destruct (failed_command_leaves_entities (RT:=runtime) broken home 1
              lamp_switch Hself) as (_ & _ & Hraised & Hsame & _).
  { intros req. right. exists 500, (inr (JObj {["message" := JStr "relay board offline"]})).
    split; [reflexivity|]. intros Heq. discriminate Heq. }
  split; [exact Hself|]. split; [exact Hraised|exact Hsame].
Defined.

Lemma setup_test_agrees_with_probe_witness :
  base_url keyed = entry_base_url (RT:=runtime) keyed_entry
  ∧ headers keyed = entry_headers keyed_entry
  ∧ (setup_connection_test (RT:=runtime) numeric_status keyed_entry = inr ()
     ↔ py_truthy (test_connection numeric_status keyed) = true).
Proof.
  split; [reflexivity|]. split; [reflexivity|].
  exact (setup_test_agrees_with_probe (RT:=runtime) numeric_status keyed_entry
           keyed eq_refl eq_refl (λ _ _ _ _ _ _, eq_refl)).
Defined.

Lemma key_goes_with_every_request_witness :
  headers keyed = entry_headers keyed_entry
  ∧ req_headers
      (relay_request
         (send_relay_command (RT:=runtime) _handle_coordinator_update
            stuck_off keyed "1" "set_state" (JBool true)).2
         "3" "toggle" JNull)
    = {["X-HA-Access" := "s3cret"]}.
Proof.
  split; [reflexivity|].
  destruct (key_goes_with_every_request (RT:=runtime)
              _handle_coordinator_update stuck_off keyed_entry keyed "1"
              "set_state" (JBool true) "3" "toggle" JNull eq_refl)
    as (_ & Hrelay & _).
  exact Hrelay.
Defined.

Lemma user_step_failure_shows_unknown_witness :
  silent (discover_request "192.168.1.50" 8123) = Raised TimeoutError
  ∧ async_step_user (RT:=runtime) free silent ∅ (Some ("192.168.1.50", 8123))
    = (ShowForm "user" {["base" := "unknown"]} ∅, ∅).
Proof.
  split; [reflexivity|].
  refine (proj2 (user_step_failure_shows_unknown (RT:=runtime) free silent ∅
                   "192.168.1.50" 8123 _)).
  intros (discovery_info & Hsrv). discriminate Hsrv.
Defined.

Lemma user_step_entry_has_no_auth_witness :
  async_step_user (RT:=runtime) free unlocked ∅ (Some ("192.168.1.50", 8123))
  = (CreateEntry "Multitek Tablet (192.168.1.50)" plain_entry,
     <["port" := JInt 8123]>
       (<["ip" := JStr "192.168.1.50"]> {["name" := JStr "Hall tablet"]}))
  ∧ entry_headers plain_entry = ∅.
Proof.
  assert (async_step_user (RT:=runtime) free unlocked ∅
            (Some ("192.168.1.50", 8123))
          = (CreateEntry "Multitek Tablet (192.168.1.50)" plain_entry,
             <["port" := JInt 8123]>
               (<["ip" := JStr "192.168.1.50"]>
                  {["name" := JStr "Hall tablet"]}))) as Hstep
    by reflexivity.
  split; [exact Hstep|].
  destruct (user_step_entry_has_no_auth (RT:=runtime) free unlocked ∅ _ _ _ _
              Hstep) as (ip & port & _ & _ & Hheaders & _).
  exact Hheaders.
Defined.

Lemma auth_step_entry_carries_key_witness :
  async_step_auth (RT:=runtime) free obliging discovered (Some "s3cret")
  = CreateEntry "Multitek Tablet (192.168.1.50)" keyed_entry
  ∧ entry_headers keyed_entry = {["X-HA-Access" := "s3cret"]}.
Proof.
  assert (async_step_auth (RT:=runtime) free obliging discovered (Some "s3cret")
          = CreateEntry "Multitek Tablet (192.168.1.50)" keyed_entry) as Hstep
    by reflexivity.
  split; [exact Hstep|].
  destruct (auth_step_entry_carries_key (RT:=runtime) free obliging discovered
              "s3cret" _ _ Hstep) as (_ & _ & _ & Hheaders & _).
  exact Hheaders.
Defined.

Lemma auth_step_failure_shows_unknown_witness :
  rejecting (auth_request (RT:=runtime) keyed_entry)
  = Response 401 (inr (JObj {["message" := JStr "bad key"]}))
  ∧ async_step_auth (RT:=runtime) free rejecting discovered (Some "s3cret")
    = ShowForm "auth" {["base" := "unknown"]}
               {["tablet_ip" := JStr "192.168.1.50"]}.
Proof.
  split; [reflexivity|].
  refine (auth_step_failure_shows_unknown (RT:=runtime) free rejecting
            discovered "s3cret" _).
  intros (body & Hsrv). discriminate Hsrv.
Defined.

Lemma user_step_asks_for_key_witness :
  locked (discover_request "192.168.1.50" 8123)
  = Response 200
      (inr (JObj (list_to_map
                    [("name", JStr "Hall tablet"); ("ip", JStr "10.0.0.1");
                     ("api", JObj {["auth_required" := JBool true]})])))
  ∧ (async_step_user (RT:=runtime) free locked ∅
       (Some ("192.168.1.50", 8123))).1
    = ShowForm "auth" ∅ {[CONF_TABLET_IP := JStr "192.168.1.50"]}.
Proof.
  split; [reflexivity|].
  rewrite (user_step_asks_for_key (RT:=runtime) free locked ∅ "192.168.1.50"
             8123 _ {["auth_required" := JBool true]} eq_refl eq_refl eq_refl).
  reflexivity.
Defined.
